(** * Solar design system: yield and economic estimators

    Shallow embedding of the computations performed by the dashboard of the
    photovoltaic design application:

    - [SimulationResults.tsx]: [calculateMonthlyProduction],
      [calculatePerformanceMetrics] and the values computed by the
      [SimulationResults] component;
    - the economic analysis component, imported by the dashboard as
      [components/analysis/EconomicAnalysis]: [calculateCosts],
      [generateROIData] and the values computed by [EconomicAnalysis];
    - [Dashboard.tsx]: [calculateSystemSize] and the wiring of the two
      components;
    - [types/project.ts]: the records the components receive.

    Numbers.  A JavaScript [number] is modelled by the type [number] below:
    a real number, one of the two infinities, or NaN.  The arithmetic
    follows IEEE 754 on the special values (0/0 is NaN, x/0 is an infinity,
    0 * Infinity is NaN, NaN is absorbing, comparisons with NaN are false)
    and is exact on finite values: binary64 rounding, overflow and the sign
    of zero are not modelled.  [Math.cos] and [Math.PI] are the real cosine
    and the real pi.  The economic analysis is embedded a second time over
    the primitive binary64 numbers (module [Binary64]), for the facts that
    depend on rounding. *)

From Stdlib Require Import Reals Lra Lia ZArith List String Bool.
From Stdlib Require Import Zfloor.
From Stdlib Require Import Permutation.
From Stdlib Require PrimFloat.
Import ListNotations.

(** ** JavaScript numbers *)

Inductive number : Type :=
| Fin (r : R)           (* a finite value *)
| Inf (negative : bool) (* Infinity, -Infinity *)
| NaN.

Declare Scope js_scope.
Delimit Scope js_scope with js.
Bind Scope js_scope with number.

Module Num.

(** [true] when the finite value is below zero. *)
Definition negative (r : R) : bool :=
  if Rlt_dec r 0 then true else false.

Definition is_zero (r : R) : bool :=
  if Req_dec_T r 0 then true else false.

Definition add (x y : number) : number :=
  match x, y with
  | NaN, _ | _, NaN => NaN
  | Fin a, Fin b => Fin (a + b)
  | Fin _, Inf s | Inf s, Fin _ => Inf s
  | Inf s, Inf s' => if Bool.eqb s s' then Inf s else NaN
  end.

Definition opp (x : number) : number :=
  match x with
  | Fin a => Fin (- a)
  | Inf s => Inf (negb s)
  | NaN => NaN
  end.

Definition sub (x y : number) : number := add x (opp y).

Definition mul (x y : number) : number :=
  match x, y with
  | NaN, _ | _, NaN => NaN
  | Fin a, Fin b => Fin (a * b)
  | Fin a, Inf s | Inf s, Fin a =>
      if is_zero a then NaN else Inf (xorb (negative a) s)
  | Inf s, Inf s' => Inf (xorb s s')
  end.

Definition div (x y : number) : number :=
  match x, y with
  | NaN, _ | _, NaN => NaN
  | Fin a, Fin b =>
      if is_zero b
      then (if is_zero a then NaN else Inf (negative a))
      else Fin (a / b)
  | Fin _, Inf _ => Fin 0
  | Inf s, Fin b => Inf (xorb s (negative b))
  | Inf _, Inf _ => NaN
  end.

(** [x > y] *)
Definition gt (x y : number) : bool :=
  match x, y with
  | NaN, _ | _, NaN => false
  | Fin a, Fin b => if Rlt_dec b a then true else false
  | Fin _, Inf s => s
  | Inf s, Fin _ => negb s
  | Inf s, Inf s' => negb s && s'
  end.

(** Truthiness of a number, as used by [||]: 0 and NaN are falsy. *)
Definition truthy (x : number) : bool :=
  match x with
  | Fin a => negb (is_zero a)
  | Inf _ => true
  | NaN => false
  end.

(** [x || d] on numbers. *)
Definition or_else (x d : number) : number :=
  if truthy x then x else d.

Definition of_nat (n : nat) : number := Fin (INR n).

End Num.

Infix "+" := Num.add : js_scope.
Infix "-" := Num.sub : js_scope.
Infix "*" := Num.mul : js_scope.
Infix "/" := Num.div : js_scope.
Notation "- x" := (Num.opp x) : js_scope.
Infix ">" := Num.gt : js_scope.

(** The part of the [Math] object the program uses. *)
Module Math.

Definition PI : number := Fin Rtrigo1.PI.

Definition abs (x : number) : number :=
  match x with
  | Fin a => Fin (Rabs a)
  | Inf _ => Inf false
  | NaN => NaN
  end.

Definition cos (x : number) : number :=
  match x with
  | Fin a => Fin (Rtrigo_def.cos a)
  | Inf _ | NaN => NaN
  end.

(** [Math.round]: the nearest integer, ties towards +Infinity, that is
    floor (x + 1/2). *)
Definition round (x : number) : number :=
  match x with
  | Fin a => Fin (IZR (Zfloor (a + / 2)))
  | Inf s => Inf s
  | NaN => NaN
  end.

End Math.

(** ** types/project.ts *)

Inductive ComponentType : Type := panel | inverter | battery.

Definition ComponentType_eqb (a b : ComponentType) : bool :=
  match a, b with
  | panel, panel | inverter, inverter | battery, battery => true
  | _, _ => false
  end.

(** A value of the [specifications] dictionary: [number | string]. *)
Inductive SpecValue : Type :=
| SpecNumber (n : number)
| SpecString (s : string).

Record Location : Type := {
  latitude : number;
  longitude : number;
  address : string
}.

Record Dimensions : Type := {
  width : number;
  height : number;
  depth : number
}.

Record Position : Type := {
  x : number;
  y : number;
  z : number
}.

Record Obstacle : Type := {
  obstacle_type : string; (* the field [type] of an obstacle *)
  dimensions : Dimensions;
  position : Position
}.

Record SystemConstraints : Type := {
  availableArea : number;
  roofType : string;
  orientation : number;
  tilt : number;
  obstacles : list Obstacle
}.

Record Component : Type := {
  id : string;
  type : ComponentType;
  manufacturer : string;
  model : string;
  specifications : list (string * SpecValue)
}.

Open Scope string_scope.
Open Scope js_scope.

(** ** SimulationResults.tsx *)

Module SimulationResults.

Record Props : Type := {
  selectedComponents : list Component;
  systemConstraints : SystemConstraints;
  location : option Location (* [null] is [None] *)
}.

Record BaseProduction : Type := {
  base_month : string;
  factor : number
}.

Record MonthlyProduction : Type := {
  month : string;
  production : number
}.

(** Approximate monthly production factors (kWh/kWp). *)
Definition baseProduction : list BaseProduction := [
  {| base_month := "Ene"; factor := Fin 5.2 |};
  {| base_month := "Feb"; factor := Fin 4.8 |};
  {| base_month := "Mar"; factor := Fin 4.5 |};
  {| base_month := "Abr"; factor := Fin 3.8 |};
  {| base_month := "May"; factor := Fin 3.0 |};
  {| base_month := "Jun"; factor := Fin 2.5 |};
  {| base_month := "Jul"; factor := Fin 2.7 |};
  {| base_month := "Ago"; factor := Fin 3.3 |};
  {| base_month := "Sep"; factor := Fin 4.0 |};
  {| base_month := "Oct"; factor := Fin 4.7 |};
  {| base_month := "Nov"; factor := Fin 5.0 |};
  {| base_month := "Dic"; factor := Fin 5.3 |}
].

(** Adjustment for tilt and latitude, the local constant [tiltFactor] of
    [calculateMonthlyProduction]:
    [Math.cos((tilt - Math.abs(latitude)) * Math.PI / 180)]. *)
Definition tiltFactor (tilt latitude : number) : number :=
  Math.cos ((tilt - Math.abs latitude) * Math.PI / Fin 180).

Definition calculateMonthlyProduction
    (systemSize tilt latitude : number) : list MonthlyProduction :=
  let tiltFactor := tiltFactor tilt latitude in
  map (fun month =>
         {| month := month.(base_month);
            production :=
              Math.round (systemSize * month.(factor) * tiltFactor * Fin 30) |})
      baseProduction.

Record Metrics : Type := {
  annualProduction : number;
  specificYield : number;
  performanceRatio : number;
  co2Savings : number
}.

(** [xs.reduce((acc, x) => f(acc, x), init)] is a left fold. *)
Definition calculatePerformanceMetrics
    (systemSize : number) (monthlyProduction : list MonthlyProduction)
    : Metrics :=
  let annualProduction :=
    fold_left (fun acc month => acc + month.(production))
              monthlyProduction (Fin 0) in
  let specificYield := annualProduction / systemSize in
  let performanceRatio := Fin 0.8 in
  let co2Savings := annualProduction * Fin 0.5 in
  {| annualProduction := annualProduction;
     specificYield := specificYield;
     performanceRatio := performanceRatio;
     co2Savings := co2Savings |}.

(** What the component computes before it renders. *)
Record Computed : Type := {
  systemSize : number;
  monthlyProduction : list MonthlyProduction;
  metrics : Metrics
}.

(** [location?.latitude || -33.4489]: the default is taken when there is
    no location and when the latitude is falsy (0 or NaN). *)
Definition latitudeOrDefault (location : option Location) : number :=
  match location with
  | Some l => Num.or_else l.(latitude) (Fin (-33.4489))
  | None => Fin (-33.4489)
  end.

Definition SimulationResults (props : Props) : Computed :=
  let panels :=
    filter (fun c => ComponentType_eqb c.(type) panel)
           props.(selectedComponents) in
  let systemSize := Num.of_nat (List.length panels) * Fin 0.360 in
  let monthlyProduction :=
    calculateMonthlyProduction
      systemSize
      props.(systemConstraints).(tilt)
      (latitudeOrDefault props.(location)) in
  let metrics := calculatePerformanceMetrics systemSize monthlyProduction in
  {| systemSize := systemSize;
     monthlyProduction := monthlyProduction;
     metrics := metrics |}.

End SimulationResults.

(** ** The economic analysis component *)

Module EconomicAnalysis.

Record Props : Type := {
  selectedComponents : list Component;
  systemSize : option number (* optional, in kW; default 10 *)
}.

Record CostBreakdown : Type := {
  category : string;
  cost : number;
  percentage : number
}.

(** Estimated cost per component type (USD): the [costs] table. *)
Definition costs (t : ComponentType) : number :=
  match t with
  | panel => Fin 300
  | inverter => Fin 1000
  | battery => Fin 7000
  end.

Definition calculateCosts (components : list Component)
    : list CostBreakdown :=
  let totalComponentCost :=
    fold_left (fun acc component => acc + costs component.(type))
              components (Fin 0) in
  let installationCost := totalComponentCost * Fin 0.3 in
  let designCost := totalComponentCost * Fin 0.1 in
  let total := totalComponentCost + installationCost + designCost in
  [ {| category := "Componentes";
       cost := totalComponentCost;
       percentage := (totalComponentCost / total) * Fin 100 |};
    {| category := "Instalación";
       cost := installationCost;
       percentage := (installationCost / total) * Fin 100 |};
    {| category := "Diseño e Ingeniería";
       cost := designCost;
       percentage := (designCost / total) * Fin 100 |} ].

Record ROIEntry : Type := {
  year : number;
  balance : number;
  production : number
}.

(** [generateROIData(totalCost, systemSize = 10)]: an absent second
    argument is 10.  [Array.from({ length: 26 }, (_, year) => ...)] gives
    the entries for the indices 0, 1, ..., 25 in this order. *)
Definition generateROIData (totalCost : number) (systemSize : option number)
    : list ROIEntry :=
  let systemSize := match systemSize with Some s => s | None => Fin 10 end in
  let yearlyProduction := systemSize * Fin 1600 in
  let electricityPrice := Fin 0.15 in
  let yearlyRevenue := yearlyProduction * electricityPrice in
  map (fun year =>
         {| year := Num.of_nat year;
            balance := - totalCost + yearlyRevenue * Num.of_nat year;
            production := yearlyProduction |})
      (seq 0 26).

(** [roiData.find(data => data.balance > 0)?.year || 0] *)
Definition paybackYear (roiData : list ROIEntry) : number :=
  match find (fun data => data.(balance) > Fin 0) roiData with
  | Some data => Num.or_else data.(year) (Fin 0)
  | None => Fin 0
  end.

Record Computed : Type := {
  costBreakdown : list CostBreakdown;
  totalCost : number;
  roiData : list ROIEntry;
  payback : number (* the constant [paybackYear] of the component *)
}.

Definition EconomicAnalysis (props : Props) : Computed :=
  let systemSize :=
    match props.(systemSize) with Some s => s | None => Fin 10 end in
  let costBreakdown := calculateCosts props.(selectedComponents) in
  let totalCost :=
    fold_left (fun acc item => acc + item.(cost)) costBreakdown (Fin 0) in
  let roiData := generateROIData totalCost (Some systemSize) in
  {| costBreakdown := costBreakdown;
     totalCost := totalCost;
     roiData := roiData;
     payback := paybackYear roiData |}.

End EconomicAnalysis.

(** ** Dashboard.tsx *)

Module Dashboard.

Definition calculateSystemSize (components : list Component) : number :=
  let panels :=
    filter (fun c => ComponentType_eqb c.(type) panel) components in
  Num.of_nat (List.length panels) * Fin 0.360.

(** The state of the page. *)
Record State : Type := {
  location : option Location;
  selectedComponents : list Component;
  systemConstraints : SystemConstraints
}.

(** The initial values of the three [useState] hooks. *)
Definition initialState : State :=
  {| location := None;
     selectedComponents := [];
     systemConstraints :=
       {| availableArea := Fin 100;
          roofType := "plano";
          orientation := Fin 0;
          tilt := Fin 30;
          obstacles := [] |} |}.

(** What one rendering of the page computes: the economic analysis is
    given the selection and [calculateSystemSize] of it, the simulation
    results are given the selection, the constraints and the location. *)
Record Rendered : Type := {
  economicAnalysis : EconomicAnalysis.Computed;
  simulationResults : SimulationResults.Computed
}.

Definition Dashboard (st : State) : Rendered :=
  {| economicAnalysis :=
       EconomicAnalysis.EconomicAnalysis
         {| EconomicAnalysis.selectedComponents := st.(selectedComponents);
            EconomicAnalysis.systemSize :=
              Some (calculateSystemSize st.(selectedComponents)) |};
     simulationResults :=
       SimulationResults.SimulationResults
         {| SimulationResults.selectedComponents := st.(selectedComponents);
            SimulationResults.systemConstraints := st.(systemConstraints);
            SimulationResults.location := st.(location) |} |}.

End Dashboard.

(** ** ComponentCatalog.tsx: the sample data of the catalog *)

Module ComponentCatalog.

Definition sunpower : Component :=
  {| id := "1"; type := panel;
     manufacturer := "SunPower"; model := "SPR-X22-360";
     specifications :=
       [ ("power", SpecNumber (Fin 360));
         ("efficiency", SpecNumber (Fin 22.7));
         ("warranty", SpecNumber (Fin 25));
         ("dimensions", SpecString "1046x1690x40");
         ("weight", SpecNumber (Fin 18.6)) ] |}.

Definition sunnyboy : Component :=
  {| id := "2"; type := inverter;
     manufacturer := "SMA"; model := "Sunny Boy 5.0";
     specifications :=
       [ ("power", SpecNumber (Fin 5000));
         ("efficiency", SpecNumber (Fin 97.6));
         ("warranty", SpecNumber (Fin 10));
         ("mpptChannels", SpecNumber (Fin 2));
         ("maxVoltage", SpecNumber (Fin 600)) ] |}.

Definition powerwall : Component :=
  {| id := "3"; type := battery;
     manufacturer := "Tesla"; model := "Powerwall 2";
     specifications :=
       [ ("capacity", SpecNumber (Fin 13.5));
         ("power", SpecNumber (Fin 7));
         ("warranty", SpecNumber (Fin 10));
         ("dimensions", SpecString "1150x755x155");
         ("weight", SpecNumber (Fin 114)) ] |}.

Definition sampleComponents : list Component :=
  [sunpower; sunnyboy; powerwall].

End ComponentCatalog.

(** ** Dashboard.tsx: the event handlers of the page *)

Module DashboardHandlers.

Import Dashboard.

(** [setSystemConstraints(prev => ({ ...prev, availableArea: newValue }))] *)
Definition handleAreaChange (newValue : number) (st : State) : State :=
  {| location := st.(location);
     selectedComponents := st.(selectedComponents);
     systemConstraints :=
       {| availableArea := newValue;
          roofType := st.(systemConstraints).(roofType);
          orientation := st.(systemConstraints).(orientation);
          tilt := st.(systemConstraints).(tilt);
          obstacles := st.(systemConstraints).(obstacles) |} |}.

(** [setSystemConstraints(prev => ({ ...prev, tilt: newValue }))] *)
Definition handleTiltChange (newValue : number) (st : State) : State :=
  {| location := st.(location);
     selectedComponents := st.(selectedComponents);
     systemConstraints :=
       {| availableArea := st.(systemConstraints).(availableArea);
          roofType := st.(systemConstraints).(roofType);
          orientation := st.(systemConstraints).(orientation);
          tilt := newValue;
          obstacles := st.(systemConstraints).(obstacles) |} |}.

(** [setLocation(newLocation)]; the message written to the console is not
    part of the state. *)
Definition handleLocationChange (newLocation : Location) (st : State) : State :=
  {| location := Some newLocation;
     selectedComponents := st.(selectedComponents);
     systemConstraints := st.(systemConstraints) |}.

(** The [onComponentSelect] callback given to the catalog:
    [setSelectedComponents(prev => [...prev, component])]. *)
Definition onComponentSelect (component : Component) (st : State) : State :=
  {| location := st.(location);
     selectedComponents := st.(selectedComponents) ++ [component];
     systemConstraints := st.(systemConstraints) |}.

(** [xs.filter((x, i) => f(x, i))], the index counted from [i]. *)
Fixpoint filterIndexed {A : Type} (f : A -> nat -> bool) (xs : list A) (i : nat)
    : list A :=
  match xs with
  | [] => []
  | x :: rest =>
      if f x i then x :: filterIndexed f rest (S i)
      else filterIndexed f rest (S i)
  end.

(** The [onClick] of the delete button of the entry at [index]:
    [setSelectedComponents(prev => prev.filter((_, i) => i !== index))]. *)
Definition onDeleteClick (index : nat) (st : State) : State :=
  {| location := st.(location);
     selectedComponents :=
       filterIndexed (fun _ i => negb (Nat.eqb i index))
                     st.(selectedComponents) 0;
     systemConstraints := st.(systemConstraints) |}.

End DashboardHandlers.

(** ** DataEntryForm.tsx *)

Module DataEntryForm.

(** The initial value of the [location] state of the form. *)
Definition initialLocation : Location :=
  {| latitude := Fin (-33.4489);
     longitude := Fin (-70.6693);
     address := EmptyString |}.

(** The new location built by [handleLocationChange(lat, lng)]; it becomes
    the state of the form and is passed to [onLocationChange]. *)
Definition handleLocationChange (lat lng : number) (location : Location)
    : Location :=
  {| latitude := lat;
     longitude := lng;
     address := location.(address) |}.

(** The new location built by [handleAddressChange(event)], where [value]
    is [event.target.value]. *)
Definition handleAddressChange (value : string) (location : Location)
    : Location :=
  {| latitude := location.(latitude);
     longitude := location.(longitude);
     address := value |}.

End DataEntryForm.

(** ** The page as the user drives it

    The dashboard renders the form with its own [handleLocationChange] as
    [onLocationChange], the map inside the form reports a click to the
    form's [handleLocationChange], the catalog reports a selection to
    [onComponentSelect], and the list of selected components has a delete
    button per entry. *)

Module Page.

Record State : Type := {
  form : Location;            (* the state of [DataEntryForm] *)
  dashboard : Dashboard.State (* the state of [Dashboard] *)
}.

Definition initialState : State :=
  {| form := DataEntryForm.initialLocation;
     dashboard := Dashboard.initialState |}.

Inductive Event : Type :=
| MapClick (lat lng : number)
| AddressInput (value : string)
| AreaSlider (newValue : number)
| TiltSlider (newValue : number)
| SelectComponent (component : Component)
| DeleteClick (index : nat).

Definition handle (e : Event) (st : State) : State :=
  match e with
  | MapClick lat lng =>
      let newLocation :=
        DataEntryForm.handleLocationChange lat lng st.(form) in
      {| form := newLocation;
         dashboard :=
           DashboardHandlers.handleLocationChange newLocation st.(dashboard) |}
  | AddressInput value =>
      let newLocation := DataEntryForm.handleAddressChange value st.(form) in
      {| form := newLocation;
         dashboard :=
           DashboardHandlers.handleLocationChange newLocation st.(dashboard) |}
  | AreaSlider v =>
      {| form := st.(form);
         dashboard := DashboardHandlers.handleAreaChange v st.(dashboard) |}
  | TiltSlider v =>
      {| form := st.(form);
         dashboard := DashboardHandlers.handleTiltChange v st.(dashboard) |}
  | SelectComponent c =>
      {| form := st.(form);
         dashboard := DashboardHandlers.onComponentSelect c st.(dashboard) |}
  | DeleteClick i =>
      {| form := st.(form);
         dashboard := DashboardHandlers.onDeleteClick i st.(dashboard) |}
  end.

(** The state after a sequence of events, the first event first. *)
Definition run (events : list Event) (st : State) : State :=
  fold_left (fun s e => handle e s) events st.

End Page.

(** ** ComponentCatalog.tsx: the filter of the catalog

    [toLowerCase] is the lower-casing of the host; the filter is stated for
    any such function. *)

Module CatalogFilter.

(** [s.includes(sub)]: [sub] occurs in [s] as a contiguous part. *)
Fixpoint includes (s sub : string) : bool :=
  if String.prefix sub s then true
  else match s with
       | EmptyString => false
       | String _ rest => includes rest sub
       end.

Definition filteredComponents (toLowerCase : string -> string)
    (activeTab : ComponentType) (searchTerm : string) : list Component :=
  filter
    (fun component =>
       ComponentType_eqb component.(type) activeTab &&
       (includes (toLowerCase component.(manufacturer)) (toLowerCase searchTerm)
        || includes (toLowerCase component.(model)) (toLowerCase searchTerm)))
    ComponentCatalog.sampleComponents.

End CatalogFilter.

(** ** services: the calls to the API

    A call to [api] either resolves with a body or is rejected; of a
    rejection the services read [error.response?.data?.error] only. *)

Module Api.

Record ApiResponse (T : Type) : Type := {
  success : bool;
  data : option T;
  error : option string
}.

Arguments success {T} _.
Arguments data {T} _.
Arguments error {T} _.

Inductive Outcome (T : Type) : Type :=
| Resolved (body : ApiResponse T)       (* [response.data] *)
| Rejected (serverError : option string) (* [error.response?.data?.error] *).

Arguments Resolved {T} _.
Arguments Rejected {T} _.

(** [e || fallback] on an optional string: the empty string is falsy. *)
Definition orElse (e : option string) (fallback : string) : string :=
  match e with
  | Some EmptyString | None => fallback
  | Some s => s
  end.

(** The body shared by the services: return [response.data], or catch the
    rejection and return a failure with a message. *)
Definition call {T : Type} (fallback : string) (outcome : Outcome T)
    : ApiResponse T :=
  match outcome with
  | Resolved body => body
  | Rejected serverError =>
      {| success := false;
         data := None;
         error := Some (orElse serverError fallback) |}
  end.

End Api.

Module weatherService.

Definition getCurrentWeather {T : Type} :=
  @Api.call T "Error al obtener datos meteorológicos".
Definition getHistoricalData {T : Type} :=
  @Api.call T "Error al obtener datos históricos".
Definition getForecast {T : Type} :=
  @Api.call T "Error al obtener pronóstico".
Definition getIrradianceData {T : Type} :=
  @Api.call T "Error al obtener datos de irradiancia".

End weatherService.

Module projectService.

Definition getAllProjects {T : Type} :=
  @Api.call T "Error al obtener proyectos".
Definition getProjectById {T : Type} :=
  @Api.call T "Error al obtener el proyecto".
Definition createProject {T : Type} :=
  @Api.call T "Error al crear el proyecto".
Definition updateProject {T : Type} :=
  @Api.call T "Error al actualizar el proyecto".
Definition deleteProject {T : Type} :=
  @Api.call T "Error al eliminar el proyecto".
Definition addComponent {T : Type} :=
  @Api.call T "Error al agregar componente".
Definition getSimulation {T : Type} :=
  @Api.call T "Error al obtener simulación".

End projectService.

Module authService.

Record User : Type := {
  id : number;
  email : string;
  name : string
}.

(** The data of a login: [{ token: string; user: User }]. *)
Record Session : Type := {
  token : string;
  user : User
}.

(** The entry [token] of [localStorage]: absent, or a string. *)
Definition Storage : Type := option string.

(** [login]: a body with data stores its token, before the body is
    returned. *)
Definition login (outcome : Api.Outcome Session) (storage : Storage)
    : Api.ApiResponse Session * Storage :=
  match outcome with
  | Api.Resolved body =>
      (body,
       match body.(Api.data) with
       | Some session => Some session.(token)
       | None => storage
       end)
  | Api.Rejected _ => (Api.call "Error al iniciar sesión" outcome, storage)
  end.

Definition register (outcome : Api.Outcome User) : Api.ApiResponse User :=
  Api.call "Error al registrar usuario" outcome.

Definition getCurrentUser (outcome : Api.Outcome User) : Api.ApiResponse User :=
  Api.call "Error al obtener usuario actual" outcome.

(** [localStorage.removeItem('token')] *)
Definition logout (storage : Storage) : Storage := None.

(** [!!localStorage.getItem('token')] *)
Definition isAuthenticated (storage : Storage) : bool :=
  match storage with
  | Some EmptyString | None => false
  | Some _ => true
  end.

End authService.

(** ** AuthContext.tsx

    Each function awaits one call of [authService] and then sets the state
    once.  The services return a response for every outcome, so the [catch]
    branches of the context are not reached. *)

Module AuthContext.

Record AuthState : Type := {
  user : option authService.User;
  isAuthenticated : bool;
  loading : bool;
  error : option string
}.

Definition initialState : AuthState :=
  {| user := None; isAuthenticated := false; loading := true; error := None |}.

Definition signedIn (u : authService.User) : AuthState :=
  {| user := Some u; isAuthenticated := true; loading := false; error := None |}.

Definition signedOut : AuthState :=
  {| user := None; isAuthenticated := false; loading := false; error := None |}.

(** [setState(prev => ({ ...prev, error: message, loading: false }))] *)
Definition failed (message : string) (prev : AuthState) : AuthState :=
  {| user := prev.(user);
     isAuthenticated := prev.(isAuthenticated);
     loading := false;
     error := Some message |}.

(** The effect run once when the provider is mounted. *)
Definition initAuth (outcome : Api.Outcome authService.User)
    (storage : authService.Storage) (prev : AuthState) : AuthState :=
  if authService.isAuthenticated storage then
    let response := authService.getCurrentUser outcome in
    match response.(Api.success), response.(Api.data) with
    | true, Some u => signedIn u
    | _, _ => signedOut
    end
  else
    {| user := prev.(user);
       isAuthenticated := prev.(isAuthenticated);
       loading := false;
       error := prev.(error) |}.

Definition login (outcome : Api.Outcome authService.Session)
    (storage : authService.Storage) (prev : AuthState)
    : AuthState * authService.Storage :=
  let (response, storage') := authService.login outcome storage in
  (match response.(Api.success), response.(Api.data) with
   | true, Some session => signedIn session.(authService.user)
   | _, _ =>
       failed (Api.orElse response.(Api.error) "Error al iniciar sesión") prev
   end,
   storage').

Definition register (outcome : Api.Outcome authService.User)
    (prev : AuthState) : AuthState :=
  let response := authService.register outcome in
  match response.(Api.success), response.(Api.data) with
  | true, Some u => signedIn u
  | _, _ =>
      failed (Api.orElse response.(Api.error) "Error al registrar usuario") prev
  end.

Definition logout (storage : authService.Storage)
    : AuthState * authService.Storage :=
  (signedOut, authService.logout storage).

End AuthContext.

(** ** ThreeJSViewer.tsx: the roof that is drawn *)

Module ThreeJSViewer.

(** [Math.sqrt]: NaN below zero. *)
Definition Math_sqrt (v : number) : number :=
  match v with
  | Fin a => if Num.negative a then NaN else Fin (R_sqrt.sqrt a)
  | Inf false => Inf false
  | Inf true => NaN
  | NaN => NaN
  end.

(** The properties given to [RoofArea]. *)
Record RoofArea : Type := {
  width : number;
  length : number
}.

Definition defaultArea : RoofArea := {| width := Fin 10; length := Fin 10 |}.

(** [systemConstraints?.availableArea ? Math.sqrt(...) : defaultArea.width],
    and the same for the length; the constraints are optional. *)
Definition roof (systemConstraints : option SystemConstraints) : RoofArea :=
  let area :=
    match systemConstraints with
    | Some sc => Some sc.(availableArea)
    | None => None
    end in
  let truthyArea :=
    match area with Some a => Num.truthy a | None => false end in
  let side :=
    match area with Some a => Math_sqrt a | None => NaN end in
  {| width := if truthyArea then side else defaultArea.(width);
     length := if truthyArea then side else defaultArea.(length) |}.

End ThreeJSViewer.

(** ** The economic analysis, bit for bit

    The modules above compute with exact reals.  The functions of the
    economic analysis use only [+], [*], [/], unary [-] and [>], which the
    primitive binary64 numbers of Rocq have with the rounding of IEEE 754,
    the arithmetic of JavaScript.  The module below is the same code over
    them; it evaluates the code exactly at a given input. *)

Set Warnings "-inexact-float".

Module Binary64.

Import PrimFloat.

(** An array index as a number; exact below 2^53. *)
Fixpoint of_nat (n : nat) : float :=
  match n with
  | O => 0%float
  | S m => (of_nat m + 1)%float
  end.

(** Truthiness of a number: 0, -0 and NaN are falsy. *)
Definition truthy (v : float) : bool :=
  if PrimFloat.eqb v 0%float then false else PrimFloat.eqb v v.

Definition or_else (v d : float) : float := if truthy v then v else d.

Record CostBreakdown : Type := {
  category : string;
  cost : float;
  percentage : float
}.

Definition costs (t : ComponentType) : float :=
  match t with
  | panel => 300%float
  | inverter => 1000%float
  | battery => 7000%float
  end.

Definition calculateCosts (components : list Component)
    : list CostBreakdown :=
  let totalComponentCost :=
    fold_left (fun acc component => (acc + costs component.(type))%float)
              components 0%float in
  let installationCost := (totalComponentCost * 0.3)%float in
  let designCost := (totalComponentCost * 0.1)%float in
  let total := (totalComponentCost + installationCost + designCost)%float in
  [ {| category := "Componentes";
       cost := totalComponentCost;
       percentage := ((totalComponentCost / total) * 100)%float |};
    {| category := "Instalación";
       cost := installationCost;
       percentage := ((installationCost / total) * 100)%float |};
    {| category := "Diseño e Ingeniería";
       cost := designCost;
       percentage := ((designCost / total) * 100)%float |} ].

Record ROIEntry : Type := {
  year : float;
  balance : float;
  production : float
}.

Definition generateROIData (totalCost : float) (systemSize : option float)
    : list ROIEntry :=
  let systemSize :=
    match systemSize with Some s => s | None => 10%float end in
  let yearlyProduction := (systemSize * 1600)%float in
  let electricityPrice := 0.15%float in
  let yearlyRevenue := (yearlyProduction * electricityPrice)%float in
  map (fun year =>
         {| year := of_nat year;
            balance := (- totalCost + yearlyRevenue * of_nat year)%float;
            production := yearlyProduction |})
      (seq 0 26).

Definition paybackYear (roiData : list ROIEntry) : float :=
  match find (fun data => PrimFloat.ltb 0%float data.(balance)) roiData with
  | Some data => or_else data.(year) 0%float
  | None => 0%float
  end.

End Binary64.

(** * Vocabulary of the statements *)

Open Scope R_scope.

Section YieldVocabulary.

Import SimulationResults.

(** The angle, in radians, whose cosine is the tilt factor. *)
Definition misalignment (t l : R) : R := (t - Rabs l) * PI / 180.

(** The monthly value the code computes from finite data. *)
Definition rounded_production (s f tf : R) : R :=
  IZR (Zfloor (s * f * tf * 30 + / 2)).

(** The table [baseProduction] read as labels and real factors. *)
Definition monthlyFactors : list (string * R) := [
  ("Ene", 5.2); ("Feb", 4.8); ("Mar", 4.5); ("Abr", 3.8);
  ("May", 3.0); ("Jun", 2.5); ("Jul", 2.7); ("Ago", 3.3);
  ("Sep", 4.0); ("Oct", 4.7); ("Nov", 5.0); ("Dic", 5.3)
].

(** The formula of the specification (section 4.3, step 3), in its words. *)
Definition spec_production
    (systemSizeKW baseFactor tiltFactor daysInMonth shadingLoss : R) : R :=
  systemSizeKW * baseFactor * tiltFactor * daysInMonth * (1 - shadingLoss / 100).

(** The calendar labels of the twelve months, January to December. *)
Definition calendarLabels : list string :=
  ["Ene"; "Feb"; "Mar"; "Abr"; "May"; "Jun";
   "Jul"; "Ago"; "Sep"; "Oct"; "Nov"; "Dic"].

(** A number that is neither NaN nor an infinity. *)
Definition finite (v : number) : Prop := exists r : R, v = Fin r.

(** The test [c => c.type === 'panel']. *)
Definition isPanel (c : Component) : bool := ComponentType_eqb c.(type) panel.



(** The entry of a [specifications] dictionary under a key. *)
Fixpoint lookupSpec (key : string) (specs : list (string * SpecValue))
    : option SpecValue :=
  match specs with
  | [] => None
  | (k, v) :: rest => if String.eqb k key then Some v else lookupSpec key rest
  end.

(** Section 4.1 of the specification, in its words: the nominal power of a
    component is its nameplate [power] in W, expressed in kW, and a missing
    power counts 0; the system size is the sum over the panels. *)
Definition spec_nominalPowerKW (c : Component) : R :=
  match lookupSpec "power" c.(specifications) with
  | Some (SpecNumber (Fin w)) => w / 1000
  | _ => 0
  end.

Definition spec_systemSizeKW (cs : list Component) : R :=
  fold_right
    (fun c acc => if isPanel c then spec_nominalPowerKW c + acc else acc)
    0 cs.

(** The number of panels of a selection. *)
Fixpoint panelCount (cs : list Component) : nat :=
  match cs with
  | [] => 0%nat
  | c :: rest =>
      match c.(type) with
      | panel => S (panelCount rest)
      | _ => panelCount rest
      end
  end.

(** A 400 W panel, and a panel without a [power] entry. *)
Definition panel400 : Component :=
  {| id := "4"; type := panel; manufacturer := "Acme"; model := "A-400";
     specifications := [("power", SpecNumber (Fin 400))] |}.

Definition panelNoPower : Component :=
  {| id := "5"; type := panel; manufacturer := "Acme"; model := "A-0";
     specifications := [] |}.

End YieldVocabulary.

Section EconomicVocabulary.

Import SimulationResults.
Import EconomicAnalysis.

(** The unit cost of a component and the cost of a selection, as reals. *)
Definition unitCost (t : ComponentType) : R :=
  match t with
  | panel => 300
  | inverter => 1000
  | battery => 7000
  end.

Definition componentsCost (cs : list Component) : R :=
  fold_right (fun c acc => unitCost c.(type) + acc) 0 cs.

(** The balance of year [y] as a real. *)
Definition balanceAt (totalCost systemSize : R) (y : nat) : R :=
  - totalCost + systemSize * 1600 * 0.15 * INR y.

(** The entry of year [y] of the series, for finite arguments. *)
Definition roiEntry (totalCost systemSize : R) (y : nat) : ROIEntry :=
  {| year := Fin (INR y);
     balance := Fin (balanceAt totalCost systemSize y);
     production := Fin (systemSize * 1600) |}.

(** The test [data => data.balance > 0]. *)
Definition positiveBalance (data : ROIEntry) : bool :=
  (data.(balance) > Fin 0)%js.

(** The system size the component works with: the property or 10. *)
Definition sizeOrDefault (props : EconomicAnalysis.Props) : number :=
  match props.(systemSize) with Some s => s | None => Fin 10 end.

(** The page after an inverter alone was selected. *)
Definition inverterOnly : Dashboard.State :=
  {| Dashboard.location := None;
     Dashboard.selectedComponents := [ComponentCatalog.sunnyboy];
     Dashboard.systemConstraints :=
       Dashboard.initialState.(Dashboard.systemConstraints) |}.

(** The properties the page then gives to the economic analysis. *)
Definition inverterOnlyProps : EconomicAnalysis.Props :=
  {| selectedComponents := [ComponentCatalog.sunnyboy];
     systemSize := Some (Dashboard.calculateSystemSize [ComponentCatalog.sunnyboy]) |}.

End EconomicVocabulary.

Section CashFlowVocabulary.

Import EconomicAnalysis.

(** The balance of year [y], with the operations of the code:
    [-totalCost + yearlyRevenue * year], where [yearlyRevenue] is
    [systemSize * 1600 * 0.15]. *)
Definition balanceOfYear (totalCost systemSize : number) (y : nat) : number :=
  (- totalCost + systemSize * Fin 1600 * Fin 0.15 * Num.of_nat y)%js.

(** The entry of year [y] of the series, for any two numbers. *)
Definition entryOfYear (totalCost systemSize : number) (y : nat) : ROIEntry :=
  {| year := Num.of_nat y;
     balance := balanceOfYear totalCost systemSize y;
     production := (systemSize * Fin 1600)%js |}.

(** The balance of section 4.4 of the specification, in its words. *)
Definition spec_balance
    (totalCost annualProductionKWh electricityPrice : R) (y : nat) : R :=
  - totalCost + annualProductionKWh * electricityPrice * INR y.

(** One catalog panel at 30 degrees south, with the initial tilt of 30
    degrees. *)
Definition onePanelAt30South : Dashboard.State :=
  {| Dashboard.location :=
       Some {| latitude := Fin (-30);
               longitude := Fin (-51.2);
               address := "Porto Alegre" |};
     Dashboard.selectedComponents := [ComponentCatalog.sunpower];
     Dashboard.systemConstraints :=
       Dashboard.initialState.(Dashboard.systemConstraints) |}.

End CashFlowVocabulary.

Section PageVocabulary.

Import SimulationResults.
Import EconomicAnalysis.

(** A chimney on the roof. *)
Definition chimney : Obstacle :=
  {| obstacle_type := "chimney";
     dimensions := {| width := Fin 1; height := Fin 2; depth := Fin 1 |};
     position := {| x := Fin 3; y := Fin 0; z := Fin 4 |} |}.

(** One catalog panel at Santiago, roof facing north, no obstacle. *)
Definition onePanelNorth : Dashboard.State :=
  {| Dashboard.location :=
       Some {| latitude := Fin (-33.4489);
               longitude := Fin (-70.6693);
               address := "Santiago" |};
     Dashboard.selectedComponents := [ComponentCatalog.sunpower];
     Dashboard.systemConstraints :=
       {| availableArea := Fin 100; roofType := "plano";
          orientation := Fin 0; tilt := Fin 30; obstacles := [] |} |}.

(** The same page with the roof facing south and a chimney. *)
Definition onePanelSouthShaded : Dashboard.State :=
  {| Dashboard.location := onePanelNorth.(Dashboard.location);
     Dashboard.selectedComponents := onePanelNorth.(Dashboard.selectedComponents);
     Dashboard.systemConstraints :=
       {| availableArea := Fin 100; roofType := "plano";
          orientation := Fin 180; tilt := Fin 30; obstacles := [chimney] |} |}.

End PageVocabulary.

Section ExtraVocabulary.

Import SimulationResults.

(** The properties of [SimulationResults] for a selection, a site and a
    location. *)
Definition simulationProps (cs : list Component) (sc : SystemConstraints)
    (loc : option Location) : SimulationResults.Props :=
  {| selectedComponents := cs; systemConstraints := sc; location := loc |}.

(** A location that differs from [loc] in its latitude only. *)
Definition withLatitude (lat : number) (loc : Location) : Location :=
  {| latitude := lat;
     longitude := loc.(longitude);
     address := loc.(address) |}.

End ExtraVocabulary.

Section EconomicExtraVocabulary.

Import EconomicAnalysis.

(** The properties of [EconomicAnalysis] as the dashboard gives them. *)
Definition economicProps (cs : list Component) : EconomicAnalysis.Props :=
  {| selectedComponents := cs;
     systemSize := Some (Dashboard.calculateSystemSize cs) |}.

(** The payback year reported for a finite total cost and system size. *)
Definition paybackOf (totalCost systemSize : R) : number :=
  paybackYear (generateROIData (Fin totalCost) (Some (Fin systemSize))).

End EconomicExtraVocabulary.

Section PageExtraVocabulary.

(** Removal of the entry at [index], when there is one. *)
Definition removeAt {A : Type} (index : nat) (xs : list A) : list A :=
  firstn index xs ++ skipn (S index) xs.

(** What the page shows for a state of the page. *)
Definition rendered (st : Page.State) : Dashboard.Rendered :=
  Dashboard.Dashboard st.(Page.dashboard).

(** The location of the dashboard is the one of the form, or it is still
    absent and the form still has its initial coordinates. *)
Definition formInSync (st : Page.State) : Prop :=
  st.(Page.dashboard).(Dashboard.location) = Some st.(Page.form) \/
  (st.(Page.dashboard).(Dashboard.location) = None /\
   st.(Page.form).(latitude) = DataEntryForm.initialLocation.(latitude) /\
   st.(Page.form).(longitude) = DataEntryForm.initialLocation.(longitude)).

End PageExtraVocabulary.

Section ServiceVocabulary.

(** Lower-casing of the letters A to Z, one instance of [toLowerCase]. *)
Fixpoint asciiToLower (s : string) : string :=
  match s with
  | EmptyString => EmptyString
  | String ch rest =>
      let n := Ascii.nat_of_ascii ch in
      String (if (Nat.leb 65 n && Nat.leb n 90)%bool
              then Ascii.ascii_of_nat (n + 32)
              else ch)
             (asciiToLower rest)
  end.

(** The services of [weatherService] and [projectService], at one type of
    data. *)
Definition dataServices (T : Type)
    : list (Api.Outcome T -> Api.ApiResponse T) :=
  [ weatherService.getCurrentWeather;
    weatherService.getHistoricalData;
    weatherService.getForecast;
    weatherService.getIrradianceData;
    projectService.getAllProjects;
    projectService.getProjectById;
    projectService.createProject;
    projectService.updateProject;
    projectService.deleteProject;
    projectService.addComponent;
    projectService.getSimulation ].

(** What happens to the provider of the authentication context: it is
    mounted (the page is loaded), or one of its functions is called; each
    comes with the outcome of the call to the API it makes. *)
Inductive AuthEvent : Type :=
| Mount (outcome : Api.Outcome authService.User)
| Login (outcome : Api.Outcome authService.Session)
| Register (outcome : Api.Outcome authService.User)
| Logout.

Definition authStep (e : AuthEvent)
    (s : AuthContext.AuthState * authService.Storage)
    : AuthContext.AuthState * authService.Storage :=
  match e with
  | Mount outcome =>
      (AuthContext.initAuth outcome (snd s) AuthContext.initialState, snd s)
  | Login outcome => AuthContext.login outcome (snd s) (fst s)
  | Register outcome => (AuthContext.register outcome (fst s), snd s)
  | Logout => AuthContext.logout (snd s)
  end.

Definition authRun (events : list AuthEvent)
    (s : AuthContext.AuthState * authService.Storage)
    : AuthContext.AuthState * authService.Storage :=
  fold_left (fun s e => authStep e s) events s.

(** The context says "authenticated" exactly when it holds a user. *)
Definition authConsistent (st : AuthContext.AuthState) : Prop :=
  st.(AuthContext.isAuthenticated) = true <-> st.(AuthContext.user) <> None.

(** The body of a successful call. *)
Definition succeeded {T : Type} (d : T) : Api.Outcome T :=
  Api.Resolved {| Api.success := true; Api.data := Some d; Api.error := None |}.

End ServiceVocabulary.

(** * Properties *)

Section YieldProperties.

Import SimulationResults.

(** ** Arithmetic on finite numbers *)

Lemma is_zero_true : Num.is_zero 0 = true.
Proof. unfold Num.is_zero. destruct (Req_dec_T 0 0); [reflexivity | lra]. Qed.

Lemma is_zero_false (r : R) : r <> 0 -> Num.is_zero r = false.
Proof.
  intros Hr. unfold Num.is_zero.
  destruct (Req_dec_T r 0); [contradiction | reflexivity].
Qed.

Lemma div_fin (a b : R) : b <> 0 -> (Fin a / Fin b)%js = Fin (a / b).
Proof. intros Hb. simpl. now rewrite is_zero_false. Qed.

Lemma div_zero_zero : (Fin 0 / Fin 0)%js = NaN.
Proof. simpl. now rewrite is_zero_true. Qed.

Lemma gt_fin_true (a b : R) : b < a -> (Fin a > Fin b)%js = true.
Proof. intros H. simpl. destruct (Rlt_dec b a); [reflexivity | contradiction]. Qed.

Lemma gt_fin_iff (a b : R) : (Fin a > Fin b)%js = true <-> b < a.
Proof.
  split; [| apply gt_fin_true].
  simpl. destruct (Rlt_dec b a); [trivial | discriminate].
Qed.

Lemma or_else_year (n : nat) :
  Num.or_else (Num.of_nat n) (Fin 0) = Num.of_nat n.
Proof.
  unfold Num.or_else, Num.of_nat, Num.truthy, Num.is_zero.
  destruct (Req_dec_T (INR n) 0) as [E | E]; simpl; [now rewrite E | reflexivity].
Qed.

Lemma round_fin (a : R) (k : Z) :
  IZR k <= a + / 2 < IZR k + 1 -> Math.round (Fin a) = Fin (IZR k).
Proof. intros H. simpl. now rewrite (Zfloor_eq k). Qed.

(** ** The tilt factor and the monthly series *)

Lemma tiltFactor_fin (t l : R) :
  tiltFactor (Fin t) (Fin l) = Fin (cos (misalignment t l)).
Proof.
  unfold tiltFactor, misalignment. simpl.
  rewrite is_zero_false by lra. reflexivity.
Qed.

Lemma tiltFactor_aligned (l : R) : tiltFactor (Fin (Rabs l)) (Fin l) = Fin 1.
Proof.
  rewrite tiltFactor_fin. unfold misalignment.
  replace ((Rabs l - Rabs l) * PI / 180) with 0 by lra.
  now rewrite cos_0.
Qed.

Lemma calculateMonthlyProduction_nth (ss t l : number) (i : nat) :
  nth_error (calculateMonthlyProduction ss t l) i =
  option_map
    (fun m => {| month := m.(base_month);
                 production :=
                   Math.round (ss * m.(factor) * tiltFactor t l * Fin 30)%js |})
    (nth_error baseProduction i).
Proof. unfold calculateMonthlyProduction. apply nth_error_map. Qed.

Lemma baseProduction_monthlyFactors :
  baseProduction =
  map (fun m => {| base_month := fst m; factor := Fin (snd m) |}) monthlyFactors.
Proof. reflexivity. Qed.

Lemma calculateMonthlyProduction_fin (s t l : R) :
  calculateMonthlyProduction (Fin s) (Fin t) (Fin l) =
  map (fun m =>
         {| month := fst m;
            production :=
              Fin (rounded_production s (snd m) (cos (misalignment t l))) |})
      monthlyFactors.
Proof.
  unfold calculateMonthlyProduction.
  rewrite tiltFactor_fin, baseProduction_monthlyFactors, map_map.
  apply map_ext. intros [label f]. reflexivity.
Qed.

Lemma rounded_production_nearest (s f tf : R) (k : Z) :
  Rabs (s * f * tf * 30 - IZR k) <= 0.499999 ->
  rounded_production s f tf = IZR k.
Proof.
  intros H. unfold rounded_production. f_equal. apply Zfloor_eq.
  revert H. unfold Rabs. destruct (Rcase_abs (s * f * tf * 30 - IZR k)); lra.
Qed.

(** C1 (as the code has it).  For every system size, tilt and latitude
    (the arithmetic being the one of the code), the production of every
    month is [Math.round(systemSize * factor * tiltFactor * 30)]: each
    month counts 30 days, no shading loss enters, and the product is
    rounded to an integer.  For a system size between 0 and 10000 kW, a
    tilt between 0 and 90 and a latitude between -90 and 90, that integer
    is the one nearest to the product, whenever the product is at least
    1e-6 away from the middle of two integers.  For a 4 kW system whose
    tilt equals |latitude| the production of March (factor 4.5) is 540. *)
Theorem C1_monthly_production_rounded
    (systemSize tilt latitude : number) (s t l : R) (m : string * R) (k : Z) :
  calculateMonthlyProduction systemSize tilt latitude =
    map (fun m =>
           {| month := fst m;
              production :=
                Math.round
                  (systemSize * Fin (snd m) * tiltFactor tilt latitude
                   * Fin 30)%js |})
        monthlyFactors
  /\ (0 <= s <= 10000 -> 0 <= t <= 90 -> -90 <= l <= 90 ->
      In m monthlyFactors ->
      Rabs (s * snd m * cos ((t - Rabs l) * PI / 180) * 30 - IZR k)
        <= 0.499999 ->
      In {| month := fst m; production := Fin (IZR k) |}
         (calculateMonthlyProduction (Fin s) (Fin t) (Fin l)))
  /\ nth_error (calculateMonthlyProduction (Fin 4) (Fin (Rabs l)) (Fin l)) 2 =
       Some {| month := "Mar"; production := Fin 540 |}.
Proof.
  split; [| split].
  - unfold calculateMonthlyProduction.
    rewrite baseProduction_monthlyFactors, map_map. reflexivity.
  - intros _ _ _ Hm Hk. rewrite calculateMonthlyProduction_fin.
    apply in_map_iff. exists m. split; [| exact Hm].
    unfold misalignment. now rewrite (rounded_production_nearest _ _ _ k Hk).
  - rewrite calculateMonthlyProduction_nth. cbn [nth_error baseProduction option_map].
    rewrite tiltFactor_aligned. cbn [base_month factor]. do 2 f_equal.
    apply (round_fin _ 540). lra.
Qed.

(** One 0.36 kW panel, tilt 30 at 30 degrees south, February (factor 4.8):
    the product is 51.84 and the production is 52. *)
Lemma C1_monthly_production_rounded_witness :
  In {| month := "Feb"; production := Fin 52 |}
     (calculateMonthlyProduction (Fin 0.36) (Fin 30) (Fin (-30))).
Proof.
  assert (Habs : Rabs (-30) = 30).
  { unfold Rabs. destruct (Rcase_abs (-30)); lra. }
  apply (C1_monthly_production_rounded
           (Fin 0.36) (Fin 30) (Fin (-30)) 0.36 30 (-30) ("Feb", 4.8) 52).
  - lra.
  - lra.
  - lra.
  - simpl. tauto.
  - rewrite Habs. replace ((30 - 30) * PI / 180) with 0 by lra.
    rewrite cos_0. cbn [snd]. apply Rabs_le. lra.
Defined.

(** C1, counterexample.  One 360 W panel (0.36 kW) with the tilt equal to
    |latitude| (tilt factor 1), January (factor 5.2), no shading: the code
    reports 56, while the formula of the claim gives 56.16 with 30 days, and
    differs from 56 for every month length. *)
Lemma C1_counterexample :
  tiltFactor (Fin 33.4489) (Fin (-33.4489)) = Fin 1 /\
  nth_error
    (calculateMonthlyProduction (Fin 0.36) (Fin 33.4489) (Fin (-33.4489))) 0 =
    Some {| month := "Ene"; production := Fin 56 |} /\
  spec_production 0.36 5.2 1 30 0 = 56.16 /\
  forall days : R, In days [28; 29; 30; 31] ->
    Fin 56 <> Fin (spec_production 0.36 5.2 1 days 0).
Proof.
  assert (Habs : Rabs (-33.4489) = 33.4489).
  { unfold Rabs. destruct (Rcase_abs (-33.4489)); lra. }
  assert (Htf : tiltFactor (Fin 33.4489) (Fin (-33.4489)) = Fin 1).
  { rewrite <- Habs at 1. apply tiltFactor_aligned. }
  split; [exact Htf |]. split; [| split].
  - rewrite calculateMonthlyProduction_nth.
    cbn [nth_error baseProduction option_map]. rewrite Htf.
    cbn [base_month factor]. do 2 f_equal.
    apply (round_fin _ 56). lra.
  - unfold spec_production. lra.
  - intros days Hd Heq. injection Heq as Heq. unfold spec_production in Heq.
    simpl in Hd. repeat (destruct Hd as [<- | Hd]; [lra |]). contradiction.
Qed.

(** C8.  Whatever the system size, the tilt and the latitude are (NaN and
    the infinities included), the monthly series has exactly 12 entries and
    its labels are the twelve calendar labels, in calendar order and without
    repetition.  The function has no obstacle argument. *)
Theorem C8_twelve_months_in_calendar_order (systemSize tilt latitude : number) :
  let series := calculateMonthlyProduction systemSize tilt latitude in
  List.length series = 12%nat /\
  map month series = calendarLabels /\
  NoDup (map month series).
Proof.
  assert (Hlabels :
    map month (calculateMonthlyProduction systemSize tilt latitude)
    = calendarLabels).
  { unfold calculateMonthlyProduction. rewrite map_map. reflexivity. }
  cbv zeta. split; [| split].
  - unfold calculateMonthlyProduction. now rewrite length_map.
  - exact Hlabels.
  - rewrite Hlabels. unfold calendarLabels.
    repeat (constructor; [simpl; intuition discriminate |]). constructor.
Qed.

(** ** Zero system size *)




Lemma filter_no_panels (cs : list Component) :
  (forall c, In c cs -> c.(type) <> panel) -> filter isPanel cs = [].
Proof.
  induction cs as [| c cs IH]; intros H; simpl; [reflexivity |].
  unfold isPanel at 1.
  destruct (type c) eqn:E.
  - exfalso. apply (H c); [now left | exact E].
  - simpl. apply IH. intros c' Hc'. apply H. now right.
  - simpl. apply IH. intros c' Hc'. apply H. now right.
Qed.









(** ** System size *)

Lemma length_filter_isPanel (cs : list Component) :
  List.length (filter isPanel cs) = panelCount cs.
Proof.
  induction cs as [| c cs IH]; simpl; [reflexivity |].
  unfold isPanel at 1. destruct (type c); simpl; now rewrite IH.
Qed.

Lemma panelCount_types (cs cs' : list Component) :
  map type cs = map type cs' -> panelCount cs = panelCount cs'.
Proof.
  revert cs'. induction cs as [| c cs IH]; intros [| c' cs'] H;
    simpl in *; try discriminate; [reflexivity |].
  injection H as Hc Hrest. rewrite Hc, (IH cs' Hrest). reflexivity.
Qed.

Lemma calculateSystemSize_count (cs : list Component) :
  Dashboard.calculateSystemSize cs = Fin (INR (panelCount cs) * 0.360).
Proof.
  unfold Dashboard.calculateSystemSize. fold isPanel.
  now rewrite length_filter_isPanel.
Qed.

(** C3 (as the code has it).  The system size is 0.360 kW for each
    component of type [panel], whatever its specifications say: it depends
    on the types of the selection only.  The function is total, the
    simulation component computes the same value, and the empty selection
    gives 0. *)
Theorem C3_system_size_counts_panels (cs cs' : list Component) :
  Dashboard.calculateSystemSize cs = Fin (INR (panelCount cs) * 0.360) /\
  (forall sc loc,
     (SimulationResults
        {| selectedComponents := cs; systemConstraints := sc; location := loc |})
       .(systemSize) = Dashboard.calculateSystemSize cs) /\
  Dashboard.calculateSystemSize [] = Fin 0 /\
  (map type cs = map type cs' ->
   Dashboard.calculateSystemSize cs = Dashboard.calculateSystemSize cs').
Proof.
  split; [apply calculateSystemSize_count |]. split; [reflexivity |]. split.
  - rewrite calculateSystemSize_count. simpl. f_equal. lra.
  - intros H. rewrite !calculateSystemSize_count.
    now rewrite (panelCount_types cs cs' H).
Qed.

Lemma C3_system_size_counts_panels_witness :
  Dashboard.calculateSystemSize [ComponentCatalog.sunpower] =
  Dashboard.calculateSystemSize [panel400].
Proof.
  apply (C3_system_size_counts_panels [ComponentCatalog.sunpower] [panel400]).
  reflexivity.
Defined.

(** C3, counterexample.  For one 400 W panel the code gives 0.36 kW where
    the sum of the nominal powers is 0.4 kW; for one panel without a power
    entry the code gives 0.36 kW where the claim asks for 0. *)
Lemma C3_counterexample :
  Dashboard.calculateSystemSize [panel400] = Fin 0.36 /\
  spec_systemSizeKW [panel400] = 0.4 /\
  Dashboard.calculateSystemSize [panel400] <> Fin (spec_systemSizeKW [panel400]) /\
  Dashboard.calculateSystemSize [panelNoPower] = Fin 0.36 /\
  spec_systemSizeKW [panelNoPower] = 0 /\
  Dashboard.calculateSystemSize [panelNoPower]
    <> Fin (spec_systemSizeKW [panelNoPower]).
Proof.
  assert (H400 : Dashboard.calculateSystemSize [panel400] = Fin 0.36).
  { rewrite calculateSystemSize_count. simpl. f_equal. lra. }
  assert (Hno : Dashboard.calculateSystemSize [panelNoPower] = Fin 0.36).
  { rewrite calculateSystemSize_count. simpl. f_equal. lra. }
  assert (S400 : spec_systemSizeKW [panel400] = 0.4).
  { unfold spec_systemSizeKW, spec_nominalPowerKW. simpl. lra. }
  assert (Sno : spec_systemSizeKW [panelNoPower] = 0).
  { unfold spec_systemSizeKW, spec_nominalPowerKW. simpl. lra. }
  repeat split; try assumption.
  - rewrite H400, S400. intros H. injection H as H. lra.
  - rewrite Hno, Sno. intros H. injection H as H. lra.
Qed.

(** ** The tilt factor is not clamped *)







End YieldProperties.

Section EconomicProperties.

Import SimulationResults.
Import EconomicAnalysis.

(** ** Costs *)

Lemma costs_unitCost (t : ComponentType) : costs t = Fin (unitCost t).
Proof. destruct t; reflexivity. Qed.

Lemma unitCost_pos (t : ComponentType) : 0 < unitCost t.
Proof. destruct t; simpl; lra. Qed.

Lemma componentsCost_nonneg (cs : list Component) : 0 <= componentsCost cs.
Proof.
  induction cs as [| c cs IH]; simpl; [lra |].
  pose proof (unitCost_pos (type c)). lra.
Qed.

Lemma componentsCost_pos (cs : list Component) :
  cs <> [] -> 0 < componentsCost cs.
Proof.
  destruct cs as [| c cs]; [congruence | intros _; simpl].
  pose proof (unitCost_pos (type c)). pose proof (componentsCost_nonneg cs). lra.
Qed.

Lemma totalComponentCost_fin (cs : list Component) (a : R) :
  fold_left (fun acc component => (acc + costs component.(type))%js) cs (Fin a)
  = Fin (a + componentsCost cs).
Proof.
  revert a. induction cs as [| c cs IH]; intros a; simpl.
  - f_equal. lra.
  - rewrite costs_unitCost. simpl. rewrite IH. f_equal. lra.
Qed.

(** The costs of the three categories are finite for every selection. *)
Lemma calculateCosts_costs (cs : list Component) :
  map cost (calculateCosts cs) =
  [Fin (componentsCost cs);
   Fin (componentsCost cs * 0.3);
   Fin (componentsCost cs * 0.1)].
Proof.
  unfold calculateCosts. rewrite totalComponentCost_fin.
  replace (0 + componentsCost cs) with (componentsCost cs) by lra.
  reflexivity.
Qed.

Lemma sum_costs_map (cb : list CostBreakdown) (a : number) :
  fold_left (fun acc item => (acc + item.(cost))%js) cb a =
  fold_left Num.add (map cost cb) a.
Proof.
  revert a. induction cb as [| i cb IH]; intros a; simpl; [reflexivity | apply IH].
Qed.

Lemma totalCost_fin (props : EconomicAnalysis.Props) :
  (EconomicAnalysis props).(totalCost) =
  Fin (1.4 * componentsCost props.(selectedComponents)).
Proof.
  unfold EconomicAnalysis. cbn [totalCost].
  rewrite sum_costs_map, calculateCosts_costs. simpl. f_equal. lra.
Qed.

Lemma calculateCosts_percentages (cs : list Component) :
  cs <> [] ->
  let c := componentsCost cs in
  let total := c + c * 0.3 + c * 0.1 in
  map percentage (calculateCosts cs) =
  [Fin (c / total * 100);
   Fin (c * 0.3 / total * 100);
   Fin (c * 0.1 / total * 100)].
Proof.
  intros Hcs c total. pose proof (componentsCost_pos cs Hcs) as Hc. fold c in Hc.
  assert (Htotal : total <> 0) by (unfold total; lra).
  unfold calculateCosts. rewrite totalComponentCost_fin.
  replace (0 + componentsCost cs) with c by (unfold c; lra).
  cbv zeta. cbn [map percentage Num.mul Num.add]. fold total.
  rewrite !div_fin by exact Htotal. reflexivity.
Qed.

(** ** The cash-flow series *)

Lemma generateROIData_fin (tc ss : R) :
  generateROIData (Fin tc) (Some (Fin ss)) = map (roiEntry tc ss) (seq 0 26).
Proof. reflexivity. Qed.

Lemma generateROIData_nth (tc ss : R) (y : nat) :
  (y <= 25)%nat ->
  nth_error (generateROIData (Fin tc) (Some (Fin ss))) y = Some (roiEntry tc ss y).
Proof.
  intros Hy. rewrite generateROIData_fin, nth_error_map.
  replace (nth_error (seq 0 26) y) with (Some y); [reflexivity |].
  symmetry. rewrite nth_error_nth' with (d := 0%nat) by (rewrite length_seq; lia).
  now rewrite seq_nth by lia.
Qed.

Lemma balanceAt_increasing (tc ss : R) (y1 y2 : nat) :
  0 < ss -> (y1 < y2)%nat -> balanceAt tc ss y1 < balanceAt tc ss y2.
Proof.
  intros Hss Hy. apply lt_INR in Hy. unfold balanceAt. nra.
Qed.

(** [find] over an indexed series returns the entry of the least index
    that satisfies the test. *)
Lemma find_indexed_some {A : Type} (g : nat -> A) (P : A -> bool)
    (n a : nat) (e : A) :
  find P (map g (seq a n)) = Some e ->
  exists p : nat,
    (a <= p < a + n)%nat /\ e = g p /\ P (g p) = true /\
    forall q : nat, (a <= q < p)%nat -> P (g q) = false.
Proof.
  revert a. induction n as [| n IH]; intros a; simpl; [discriminate |].
  destruct (P (g a)) eqn:Ha.
  - intros [= <-]. exists a. repeat split; try lia; try assumption.
  - intros H. destruct (IH (S a) H) as (p & Hp & He & HP & Hmin).
    exists p. repeat split; try lia; try assumption.
    intros q Hq. destruct (Nat.eq_dec q a) as [-> | Hne]; [exact Ha |].
    apply Hmin. lia.
Qed.

Lemma find_indexed_none {A : Type} (g : nat -> A) (P : A -> bool)
    (n a : nat) :
  find P (map g (seq a n)) = None ->
  forall q : nat, (a <= q < a + n)%nat -> P (g q) = false.
Proof.
  intros H q Hq. apply (find_none _ _ H).
  apply in_map, in_seq. exact Hq.
Qed.

Lemma positiveBalance_roiEntry (tc ss : R) (y : nat) :
  positiveBalance (roiEntry tc ss y) = true <-> 0 < balanceAt tc ss y.
Proof. unfold positiveBalance. cbn [balance roiEntry]. apply gt_fin_iff. Qed.

Lemma positiveBalance_roiEntry_false (tc ss : R) (y : nat) :
  positiveBalance (roiEntry tc ss y) = false <-> balanceAt tc ss y <= 0.
Proof.
  unfold positiveBalance. cbn [balance roiEntry]. simpl.
  destruct (Rlt_dec 0 (balanceAt tc ss y)); split; intros; try lra;
    try reflexivity; discriminate.
Qed.

(** The payback year of a finite series: the least year with a positive
    balance, or 0 when there is none. *)
Lemma paybackYear_found (tc ss : R) (y : nat) :
  (y <= 25)%nat -> 0 < balanceAt tc ss y ->
  exists p : nat,
    (p <= y)%nat /\
    paybackYear (generateROIData (Fin tc) (Some (Fin ss))) = Fin (INR p) /\
    0 < balanceAt tc ss p /\
    forall q : nat, (q < p)%nat -> balanceAt tc ss q <= 0.
Proof.
  intros Hy Hpos. unfold paybackYear. fold positiveBalance.
  rewrite generateROIData_fin.
  destruct (find positiveBalance (map (roiEntry tc ss) (seq 0 26))) as [e |] eqn:Hfind.
  - destruct (find_indexed_some _ _ _ _ _ Hfind) as (p & Hp & -> & HP & Hmin).
    exists p. assert (Hle : (p <= y)%nat).
    { destruct (Nat.le_gt_cases p y) as [H | H]; [exact H |].
      assert (Hy' : positiveBalance (roiEntry tc ss y) = false)
        by (apply Hmin; lia).
      apply positiveBalance_roiEntry_false in Hy'. lra. }
    repeat split.
    + exact Hle.
    + cbn [year roiEntry]. apply (or_else_year p).
    + now apply positiveBalance_roiEntry.
    + intros q Hq. apply positiveBalance_roiEntry_false, Hmin. lia.
  - pose proof (find_indexed_none _ _ _ _ Hfind y) as Hn.
    assert (Hy' : positiveBalance (roiEntry tc ss y) = false) by (apply Hn; lia).
    apply positiveBalance_roiEntry_false in Hy'. lra.
Qed.

Lemma paybackYear_none (tc ss : R) :
  (forall y : nat, (y <= 25)%nat -> balanceAt tc ss y <= 0) ->
  paybackYear (generateROIData (Fin tc) (Some (Fin ss))) = Fin 0.
Proof.
  intros Hall. unfold paybackYear. fold positiveBalance.
  rewrite generateROIData_fin.
  destruct (find positiveBalance (map (roiEntry tc ss) (seq 0 26))) as [e |] eqn:Hfind;
    [| reflexivity].
  destruct (find_indexed_some _ _ _ _ _ Hfind) as (p & Hp & -> & HP & _).
  apply positiveBalance_roiEntry in HP.
  assert (balanceAt tc ss p <= 0) by (apply Hall; lia). lra.
Qed.

Lemma generateROIData_entries (totalCost systemSize : number) :
  generateROIData totalCost (Some systemSize) =
  map (entryOfYear totalCost systemSize) (seq 0 26).
Proof. reflexivity. Qed.

Lemma nth_error_seq_0 (n y : nat) :
  (y < n)%nat -> nth_error (seq 0 n) y = Some y.
Proof.
  intros Hy. rewrite nth_error_nth' with (d := 0%nat) by (rewrite length_seq; lia).
  now rewrite seq_nth by lia.
Qed.

Lemma balanceOfYear_fin (tc ss : R) (y : nat) :
  balanceOfYear (Fin tc) (Fin ss) y = Fin (balanceAt tc ss y).
Proof. reflexivity. Qed.

(** C5 (as the code has it).  For every total cost and system size (the
    arithmetic being the one of the code) the series has the 26 entries of
    the years 0 .. 25, and the balance of year y is
    -totalCost + (systemSize * 1600 * 0.15) * y: the yearly production is
    systemSize * 1600 kWh, not the annual production of the simulation, and
    the price is the constant 0.15.  When some year has a positive balance,
    the payback year is the first such year.  For a system size between
    0.36 kW (one panel) and 10^6 kW and a total cost of at most 10^9 in
    absolute value, the balance is finite and strictly increasing in the
    year. *)
Theorem C5_cash_flow_and_payback
    (totalCost systemSize : number) (tc ss : R) :
  let roiData := generateROIData totalCost (Some systemSize) in
  List.length roiData = 26%nat /\
  (forall y : nat, (y <= 25)%nat ->
     nth_error roiData y =
     Some {| year := Num.of_nat y;
             balance :=
               (- totalCost + systemSize * Fin 1600 * Fin 0.15 * Num.of_nat y)%js;
             production := (systemSize * Fin 1600)%js |}) /\
  (forall y : nat, (y <= 25)%nat ->
     (balanceOfYear totalCost systemSize y > Fin 0)%js = true ->
     exists p : nat,
       (p <= y)%nat /\ paybackYear roiData = Num.of_nat p /\
       (balanceOfYear totalCost systemSize p > Fin 0)%js = true /\
       forall q : nat, (q < p)%nat ->
         (balanceOfYear totalCost systemSize q > Fin 0)%js = false) /\
  (0.36 <= ss <= 1000000 -> Rabs tc <= 1000000000 ->
   forall y1 y2 : nat, (y1 < y2 <= 25)%nat ->
     exists b1 b2 : R,
       balanceOfYear (Fin tc) (Fin ss) y1 = Fin b1 /\
       balanceOfYear (Fin tc) (Fin ss) y2 = Fin b2 /\
       b1 < b2).
Proof.
  cbv zeta. rewrite generateROIData_entries.
  split; [now rewrite length_map, length_seq |]. split; [| split].
  - intros y Hy. rewrite nth_error_map, nth_error_seq_0 by lia. reflexivity.
  - intros y Hy Hpos. unfold paybackYear.
    set (positive := fun data : ROIEntry => (data.(balance) > Fin 0)%js).
    destruct (find positive (map (entryOfYear totalCost systemSize) (seq 0 26)))
      as [e |] eqn:Hfind.
    + destruct (find_indexed_some _ _ _ _ _ Hfind) as (p & Hp & -> & HP & Hmin).
      exists p. assert (Hle : (p <= y)%nat).
      { destruct (Nat.le_gt_cases p y) as [H | H]; [exact H | exfalso].
        assert (Hy' : positive (entryOfYear totalCost systemSize y) = false)
          by (apply Hmin; lia).
        unfold positive in Hy'. cbn [balance entryOfYear] in Hy'. congruence. }
      split; [exact Hle |]. split; [apply (or_else_year p) |].
      split; [exact HP |]. intros q Hq. apply (Hmin q). lia.
    + exfalso.
      assert (Hy' : positive (entryOfYear totalCost systemSize y) = false).
      { apply (find_indexed_none _ _ _ _ Hfind). lia. }
      unfold positive in Hy'. cbn [balance entryOfYear] in Hy'. congruence.
  - intros [Hss _] _ y1 y2 [Hy _].
    exists (balanceAt tc ss y1), (balanceAt tc ss y2).
    split; [apply balanceOfYear_fin |]. split; [apply balanceOfYear_fin |].
    apply lt_INR in Hy. unfold balanceAt. nra.
Qed.

(** Total cost 1400 (one inverter) and a 3.6 kW system: the balance of
    year 2 is positive, so the payback year is the first year with a
    positive balance, and the balance of year 1 is below that of year 2. *)
Lemma C5_cash_flow_and_payback_witness :
  (exists p : nat,
     (p <= 2)%nat /\
     paybackYear (generateROIData (Fin 1400) (Some (Fin 3.6))) = Num.of_nat p /\
     (balanceOfYear (Fin 1400) (Fin 3.6) p > Fin 0)%js = true /\
     forall q : nat, (q < p)%nat ->
       (balanceOfYear (Fin 1400) (Fin 3.6) q > Fin 0)%js = false) /\
  (exists b1 b2 : R,
     balanceOfYear (Fin 1400) (Fin 3.6) 1 = Fin b1 /\
     balanceOfYear (Fin 1400) (Fin 3.6) 2 = Fin b2 /\
     b1 < b2).
Proof.
  destruct (C5_cash_flow_and_payback (Fin 1400) (Fin 3.6) 1400 3.6)
    as (_ & _ & Hpay & Hmono).
  split.
  - apply (Hpay 2%nat).
    + lia.
    + rewrite balanceOfYear_fin. apply gt_fin_true. unfold balanceAt. simpl. lra.
  - apply Hmono.
    + lra.
    + unfold Rabs. destruct (Rcase_abs 1400); lra.
    + lia.
Defined.

(** ** The values of the economic analysis *)

Lemma EconomicAnalysis_fin (props : EconomicAnalysis.Props) (ss : R) :
  sizeOrDefault props = Fin ss ->
  let tc := 1.4 * componentsCost props.(selectedComponents) in
  EconomicAnalysis props =
  {| costBreakdown := calculateCosts props.(selectedComponents);
     totalCost := Fin tc;
     roiData := generateROIData (Fin tc) (Some (Fin ss));
     payback := paybackYear (generateROIData (Fin tc) (Some (Fin ss))) |}.
Proof.
  intros Hss tc. pose proof (totalCost_fin props) as Htc.
  unfold EconomicAnalysis in *. cbn [totalCost] in Htc.
  fold (sizeOrDefault props). rewrite Htc, Hss. reflexivity.
Qed.

Lemma sizeOrDefault_finite (props : EconomicAnalysis.Props) :
  (forall v, props.(systemSize) = Some v -> finite v) ->
  finite (sizeOrDefault props).
Proof.
  intros H. unfold sizeOrDefault. destruct (systemSize props) as [v |].
  - now apply H.
  - eexists; reflexivity.
Qed.

Lemma in_generateROIData (tc ss : R) (data : ROIEntry) :
  In data (generateROIData (Fin tc) (Some (Fin ss))) <->
  exists y : nat, (y <= 25)%nat /\ data = roiEntry tc ss y.
Proof.
  rewrite generateROIData_fin, in_map_iff. split.
  - intros (y & <- & Hy). apply in_seq in Hy. exists y. split; [lia | reflexivity].
  - intros (y & Hy & ->). exists y. split; [reflexivity | apply in_seq; lia].
Qed.

(** With a total cost that is not negative, the balance of year 0 is not
    positive, so a payback year that is found is at least 1. *)
Lemma paybackYear_cases (tc ss : R) :
  0 <= tc ->
  (paybackYear (generateROIData (Fin tc) (Some (Fin ss))) = Fin 0 /\
   forall y : nat, (y <= 25)%nat -> balanceAt tc ss y <= 0)
  \/
  (exists p : nat,
     (1 <= p <= 25)%nat /\
     paybackYear (generateROIData (Fin tc) (Some (Fin ss))) = Fin (INR p) /\
     0 < balanceAt tc ss p).
Proof.
  intros Htc.
  destruct (find positiveBalance (map (roiEntry tc ss) (seq 0 26)))
    as [e |] eqn:Hfind.
  - right. destruct (find_indexed_some _ _ _ _ _ Hfind) as (p & Hp & -> & HP & _).
    apply positiveBalance_roiEntry in HP.
    exists p. split; [| split].
    + destruct p as [| p]; [| lia].
      unfold balanceAt in HP. simpl in HP. lra.
    + unfold paybackYear. fold positiveBalance.
      rewrite generateROIData_fin, Hfind. apply (or_else_year p).
    + exact HP.
  - left. assert (Hall : forall y : nat, (y <= 25)%nat -> balanceAt tc ss y <= 0).
    { intros y Hy. apply positiveBalance_roiEntry_false.
      apply (find_indexed_none _ _ _ _ Hfind). lia. }
    split; [apply paybackYear_none, Hall | exact Hall].
Qed.

(** C6 (as the code has it).  For a finite system size (or the default):
    the payback year is reported as 0 exactly when no year of the series has
    a positive balance; otherwise it is one of the years 1 .. 25.  The value
    is always a number: nothing is raised and nothing is left undefined. *)
Theorem C6_no_payback_reports_zero (props : EconomicAnalysis.Props) :
  (forall v, props.(systemSize) = Some v -> finite v) ->
  let ea := EconomicAnalysis props in
  (ea.(payback) = Fin 0 <->
   forall data, In data ea.(roiData) -> (data.(balance) > Fin 0)%js = false) /\
  (ea.(payback) = Fin 0 \/
   exists p : nat, (1 <= p <= 25)%nat /\ ea.(payback) = Fin (INR p)).
Proof.
  intros Hfin. destruct (sizeOrDefault_finite props Hfin) as [ss Hss].
  cbv zeta. rewrite (EconomicAnalysis_fin props ss Hss). cbn [payback roiData].
  set (tc := 1.4 * componentsCost props.(selectedComponents)).
  assert (Htc : 0 <= tc).
  { unfold tc. pose proof (componentsCost_nonneg props.(selectedComponents)). lra. }
  destruct (paybackYear_cases tc ss Htc) as [[Hzero Hall] | (p & Hp & Hpay & Hpos)].
  - split; [| now left]. split; [| intros _; exact Hzero].
    intros _ data Hin. apply in_generateROIData in Hin as (y & Hy & ->).
    apply positiveBalance_roiEntry_false, Hall, Hy.
  - split; [| right; exists p; split; assumption].
    split.
    + intros H0. rewrite Hpay in H0. injection H0 as H0.
      assert (0 < INR p) by (apply lt_0_INR; lia). lra.
    + intros Hnone. exfalso.
      assert (Hp' : positiveBalance (roiEntry tc ss p) = false).
      { apply Hnone. apply in_generateROIData. exists p. split; [lia | reflexivity]. }
      apply positiveBalance_roiEntry_false in Hp'. lra.
Qed.

Lemma inverterOnly_analysis :
  (Dashboard.Dashboard inverterOnly).(Dashboard.economicAnalysis) =
  {| costBreakdown := calculateCosts [ComponentCatalog.sunnyboy];
     totalCost := Fin 1400;
     roiData := generateROIData (Fin 1400) (Some (Fin 0));
     payback := paybackYear (generateROIData (Fin 1400) (Some (Fin 0))) |}.
Proof.
  change ((Dashboard.Dashboard inverterOnly).(Dashboard.economicAnalysis))
    with (EconomicAnalysis inverterOnlyProps).
  assert (Hss : sizeOrDefault inverterOnlyProps = Fin 0).
  { unfold sizeOrDefault. cbn [systemSize inverterOnlyProps].
    rewrite calculateSystemSize_count. simpl. f_equal. lra. }
  rewrite (EconomicAnalysis_fin inverterOnlyProps 0 Hss).
  replace (1.4 * componentsCost inverterOnlyProps.(selectedComponents))
    with 1400 by (simpl; lra).
  reflexivity.
Qed.

Lemma balanceAt_no_production (tc : R) (y : nat) :
  0 <= tc -> balanceAt tc 0 y <= 0.
Proof. intros Htc. unfold balanceAt. lra. Qed.

Lemma C6_no_payback_reports_zero_witness :
  let ea := EconomicAnalysis inverterOnlyProps in
  (ea.(payback) = Fin 0 <->
   forall data, In data ea.(roiData) -> (data.(balance) > Fin 0)%js = false) /\
  (ea.(payback) = Fin 0 \/
   exists p : nat, (1 <= p <= 25)%nat /\ ea.(payback) = Fin (INR p)).
Proof.
  apply (C6_no_payback_reports_zero inverterOnlyProps).
  intros v Hv. injection Hv as <-.
  rewrite calculateSystemSize_count. eexists. reflexivity.
Defined.

(** C6, counterexample.  An inverter alone: the cost is 1400, the system
    size and so the production are 0, and no year has a positive balance.
    The payback year is reported as 0: it is not -1, and it is the year of
    the first entry of the series. *)
Lemma C6_counterexample :
  let ea := (Dashboard.Dashboard inverterOnly).(Dashboard.economicAnalysis) in
  ea.(totalCost) = Fin 1400 /\
  (forall data, In data ea.(roiData) -> (data.(balance) > Fin 0)%js = false) /\
  ea.(payback) = Fin 0 /\
  ea.(payback) <> Fin (-1) /\
  option_map year (nth_error ea.(roiData) 0) = Some ea.(payback).
Proof.
  cbv zeta. rewrite inverterOnly_analysis. cbn [totalCost roiData payback].
  assert (Hall : forall y : nat, (y <= 25)%nat -> balanceAt 1400 0 y <= 0).
  { intros y _. apply balanceAt_no_production. lra. }
  rewrite (paybackYear_none 1400 0 Hall).
  split; [reflexivity |]. split; [| split; [reflexivity | split]].
  - intros data Hin. apply in_generateROIData in Hin as (y & Hy & ->).
    apply positiveBalance_roiEntry_false, Hall, Hy.
  - intros H. injection H as H. lra.
  - rewrite generateROIData_nth by lia. reflexivity.
Qed.



End EconomicProperties.

Section PageProperties.

Import SimulationResults.
Import EconomicAnalysis.

(** ** The page as a function of its state *)

(** The values of the page that depend on the site: what [SimulationResults]
    reads from the constraints is the tilt alone. *)
Lemma SimulationResults_reads_tilt
    (cs : list Component) (sc1 sc2 : SystemConstraints) (loc : option Location) :
  sc1.(tilt) = sc2.(tilt) ->
  SimulationResults
    {| SimulationResults.selectedComponents := cs;
       systemConstraints := sc1; location := loc |} =
  SimulationResults
    {| SimulationResults.selectedComponents := cs;
       systemConstraints := sc2; location := loc |}.
Proof.
  intros Ht. unfold SimulationResults.
  cbn [SimulationResults.selectedComponents SimulationResults.systemConstraints
       SimulationResults.location].
  now rewrite Ht.
Qed.

(** C10.  Two pages with the same selection, the same location and the same
    tilt compute the same values, whatever their orientations, obstacle
    lists, areas and roof types are. *)
Theorem C10_orientation_and_obstacles_ignored (st1 st2 : Dashboard.State) :
  st1.(Dashboard.selectedComponents) = st2.(Dashboard.selectedComponents) ->
  st1.(Dashboard.location) = st2.(Dashboard.location) ->
  st1.(Dashboard.systemConstraints).(tilt)
    = st2.(Dashboard.systemConstraints).(tilt) ->
  Dashboard.Dashboard st1 = Dashboard.Dashboard st2.
Proof.
  intros Hcs Hloc Htilt. unfold Dashboard.Dashboard.
  rewrite Hcs, Hloc. f_equal.
  apply SimulationResults_reads_tilt, Htilt.
Qed.

Lemma C10_orientation_and_obstacles_ignored_witness :
  onePanelNorth.(Dashboard.systemConstraints).(orientation) = Fin 0 /\
  onePanelSouthShaded.(Dashboard.systemConstraints).(orientation) = Fin 180 /\
  onePanelNorth.(Dashboard.systemConstraints).(obstacles) = [] /\
  onePanelSouthShaded.(Dashboard.systemConstraints).(obstacles) = [chimney] /\
  Dashboard.Dashboard onePanelNorth = Dashboard.Dashboard onePanelSouthShaded.
Proof.
  do 4 (split; [reflexivity |]).
  apply (C10_orientation_and_obstacles_ignored onePanelNorth onePanelSouthShaded);
    reflexivity.
Defined.

End PageProperties.

Section YieldExtras.

Import SimulationResults.

(** ** More on the monthly series *)







(** ** The latitude the simulation uses *)

Lemma abs_opp (v : number) : Math.abs (- v)%js = Math.abs v.
Proof. destruct v as [r | s |]; simpl; [now rewrite Rabs_Ropp | | ]; reflexivity. Qed.

Lemma calculateMonthlyProduction_opp (ss t lat : number) :
  calculateMonthlyProduction ss t (- lat)%js = calculateMonthlyProduction ss t lat.
Proof.
  unfold calculateMonthlyProduction, tiltFactor. now rewrite abs_opp.
Qed.

Lemma truthy_opp (v : number) : Num.truthy (- v)%js = Num.truthy v.
Proof.
  destruct v as [r | s |]; simpl; try reflexivity.
  unfold Num.is_zero.
  destruct (Req_dec_T (- r) 0), (Req_dec_T r 0); try reflexivity; lra.
Qed.

Lemma SimulationResults_latitude (cs : list Component) (sc : SystemConstraints)
    (loc1 loc2 : option Location) :
  calculateMonthlyProduction
    (Dashboard.calculateSystemSize cs) sc.(tilt) (latitudeOrDefault loc1) =
  calculateMonthlyProduction
    (Dashboard.calculateSystemSize cs) sc.(tilt) (latitudeOrDefault loc2) ->
  SimulationResults (simulationProps cs sc loc1) =
  SimulationResults (simulationProps cs sc loc2).
Proof.
  intros H. unfold SimulationResults, simulationProps.
  cbn [SimulationResults.selectedComponents SimulationResults.systemConstraints
       SimulationResults.location].
  unfold Dashboard.calculateSystemSize in H. cbv zeta in H. now rewrite H.
Qed.

(** X4.  The sign of the latitude does not matter: a site and its mirror
    image in the other hemisphere get the same simulation results, for every
    latitude value. *)
Theorem X4_hemisphere_symmetry (cs : list Component) (sc : SystemConstraints)
    (loc : Location) :
  SimulationResults
    (simulationProps cs sc (Some (withLatitude (- loc.(latitude))%js loc))) =
  SimulationResults (simulationProps cs sc (Some loc)).
Proof.
  apply SimulationResults_latitude.
  cbn [latitudeOrDefault withLatitude latitude]. unfold Num.or_else.
  rewrite truthy_opp. destruct (Num.truthy (latitude loc)); [| reflexivity].
  apply calculateMonthlyProduction_opp.
Qed.

(** X5.  A location whose latitude is 0 (a site on the equator) or NaN is
    simulated as if no location were given, that is at the default latitude
    -33.4489. *)
Theorem X5_equator_uses_default_latitude (cs : list Component)
    (sc : SystemConstraints) (loc : Location) :
  loc.(latitude) = Fin 0 \/ loc.(latitude) = NaN ->
  latitudeOrDefault (Some loc) = Fin (-33.4489) /\
  SimulationResults (simulationProps cs sc (Some loc)) =
  SimulationResults (simulationProps cs sc None).
Proof.
  intros H.
  assert (Hlat : latitudeOrDefault (Some loc) = Fin (-33.4489)).
  { cbn [latitudeOrDefault]. unfold Num.or_else.
    destruct H as [-> | ->]; simpl; [now rewrite is_zero_true | reflexivity]. }
  split; [exact Hlat |].
  apply SimulationResults_latitude. now rewrite Hlat.
Qed.

Lemma X5_equator_uses_default_latitude_witness :
  let quito :=
    {| latitude := Fin 0; longitude := Fin (-78.5); address := "Quito" |} in
  latitudeOrDefault (Some quito) = Fin (-33.4489) /\
  SimulationResults
    (simulationProps [ComponentCatalog.sunpower]
       Dashboard.initialState.(Dashboard.systemConstraints) (Some quito)) =
  SimulationResults
    (simulationProps [ComponentCatalog.sunpower]
       Dashboard.initialState.(Dashboard.systemConstraints) None).
Proof.
  apply (X5_equator_uses_default_latitude
           [ComponentCatalog.sunpower]
           Dashboard.initialState.(Dashboard.systemConstraints)
           {| latitude := Fin 0; longitude := Fin (-78.5); address := "Quito" |}).
  left. reflexivity.
Defined.

End YieldExtras.

Section MetricsExtras.

Import SimulationResults.

(** ** The performance metrics *)

Lemma annual_nan (series : list MonthlyProduction) :
  fold_left (fun acc mp => (acc + mp.(production))%js) series NaN = NaN.
Proof. induction series as [| mp rest IH]; simpl; [reflexivity | exact IH]. Qed.

Lemma annual_poisoned (series : list MonthlyProduction) (acc : number) :
  Exists (fun mp => mp.(production) = NaN) series ->
  fold_left (fun acc mp => (acc + mp.(production))%js) series acc = NaN.
Proof.
  intros H. revert acc. induction H as [mp rest Hmp | mp rest _ IH]; intros acc; simpl.
  - rewrite Hmp. replace (acc + NaN)%js with NaN by (now destruct acc).
    apply annual_nan.
  - apply IH.
Qed.

(** X7.  One NaN among the monthly values makes the annual production, the
    specific yield and the CO2 savings NaN, whatever the system size and
    the other months are. *)
Theorem X7_nan_month_poisons_metrics (systemSize : number)
    (series : list MonthlyProduction) :
  Exists (fun mp => mp.(production) = NaN) series ->
  let m := calculatePerformanceMetrics systemSize series in
  m.(annualProduction) = NaN /\
  m.(specificYield) = NaN /\
  m.(co2Savings) = NaN.
Proof.
  intros H. cbv zeta. unfold calculatePerformanceMetrics.
  cbn [annualProduction specificYield co2Savings].
  rewrite (annual_poisoned series (Fin 0) H). repeat split; reflexivity.
Qed.

Lemma X7_nan_month_poisons_metrics_witness :
  let m :=
    calculatePerformanceMetrics (Fin 0.36)
      [ {| month := "Ene"; production := Fin 56 |};
        {| month := "Feb"; production := NaN |} ] in
  m.(annualProduction) = NaN /\
  m.(specificYield) = NaN /\
  m.(co2Savings) = NaN.
Proof.
  apply (X7_nan_month_poisons_metrics (Fin 0.36)).
  apply Exists_cons_tl, Exists_cons_hd. reflexivity.
Defined.

End MetricsExtras.

Section EconomicExtras.

Import SimulationResults.
Import EconomicAnalysis.

(** ** More on the costs *)

Lemma componentsCost_app (cs cs' : list Component) :
  componentsCost (cs ++ cs') = componentsCost cs + componentsCost cs'.
Proof.
  induction cs as [| c cs IH]; simpl; [lra | rewrite IH; lra].
Qed.

Lemma componentsCost_permutation (cs cs' : list Component) :
  Permutation cs cs' -> componentsCost cs = componentsCost cs'.
Proof.
  induction 1 as [| c cs cs' _ IH | c c' cs | cs cs' cs'' _ IH1 _ IH2]; simpl.
  - reflexivity.
  - now rewrite IH.
  - lra.
  - now rewrite IH1.
Qed.

Lemma calculateCosts_componentsCost (cs cs' : list Component) :
  componentsCost cs = componentsCost cs' ->
  calculateCosts cs = calculateCosts cs'.
Proof.
  intros H. unfold calculateCosts. now rewrite !totalComponentCost_fin, H.
Qed.

Lemma quotient_eq (a b q : R) : b <> 0 -> a = q * b -> a / b = q.
Proof. intros Hb ->. field. exact Hb. Qed.

(** X9.  The cost breakdown does not depend on the order in which the
    components were selected, and the total cost of two selections put
    together is the sum of their total costs. *)
Theorem X9_costs_order_independent_and_additive
    (cs cs' : list Component) (size : option number) :
  (Permutation cs cs' -> calculateCosts cs = calculateCosts cs') /\
  (EconomicAnalysis {| selectedComponents := cs ++ cs'; systemSize := size |})
    .(totalCost) =
  ((EconomicAnalysis {| selectedComponents := cs; systemSize := size |})
     .(totalCost)
   + (EconomicAnalysis {| selectedComponents := cs'; systemSize := size |})
       .(totalCost))%js.
Proof.
  split.
  - intros H. apply calculateCosts_componentsCost, componentsCost_permutation, H.
  - rewrite !totalCost_fin. cbn [selectedComponents Num.add].
    rewrite componentsCost_app. f_equal. lra.
Qed.

Lemma X9_costs_order_independent_and_additive_witness :
  calculateCosts [ComponentCatalog.sunpower; ComponentCatalog.sunnyboy] =
  calculateCosts [ComponentCatalog.sunnyboy; ComponentCatalog.sunpower].
Proof.
  apply (X9_costs_order_independent_and_additive
           [ComponentCatalog.sunpower; ComponentCatalog.sunnyboy]
           [ComponentCatalog.sunnyboy; ComponentCatalog.sunpower] None).
  apply perm_swap.
Defined.

(** X10.  The three percentages do not depend on what was selected: for
    every selection that is not empty they are 500/7, 150/7 and 50/7 (about
    71.4, 21.4 and 7.1); for the empty selection the total is 0 and each
    percentage is 0 / 0 * 100, that is NaN. *)
Theorem X10_percentages_are_constant (cs : list Component) :
  (cs <> [] ->
   map percentage (calculateCosts cs) =
   [Fin (500 / 7); Fin (150 / 7); Fin (50 / 7)]) /\
  (cs = [] ->
   map percentage (calculateCosts cs) = [NaN; NaN; NaN] /\
   map cost (calculateCosts cs) = [Fin 0; Fin 0; Fin 0]).
Proof.
  split.
  - intros Hcs. pose proof (calculateCosts_percentages cs Hcs) as Hp.
    cbv zeta in Hp. rewrite Hp.
    pose proof (componentsCost_pos cs Hcs) as Hc.
    set (c := componentsCost cs) in *.
    assert (Ht : c + c * 0.3 + c * 0.1 <> 0) by lra.
    rewrite (quotient_eq c _ (5 / 7) Ht) by lra.
    rewrite (quotient_eq (c * 0.3) _ (1.5 / 7) Ht) by lra.
    rewrite (quotient_eq (c * 0.1) _ (0.5 / 7) Ht) by lra.
    replace (5 / 7 * 100) with (500 / 7) by lra.
    replace (1.5 / 7 * 100) with (150 / 7) by lra.
    replace (0.5 / 7 * 100) with (50 / 7) by lra.
    reflexivity.
  - intros ->. split.
    + unfold calculateCosts. cbn [fold_left map percentage Num.mul Num.add].
      replace (0 * 0.3) with 0 by lra. replace (0 * 0.1) with 0 by lra.
      replace (0 + 0 + 0) with 0 by lra.
      rewrite div_zero_zero. reflexivity.
    + rewrite calculateCosts_costs. simpl. repeat f_equal; lra.
Qed.

Lemma X10_percentages_are_constant_witness :
  map percentage (calculateCosts [ComponentCatalog.powerwall]) =
  [Fin (500 / 7); Fin (150 / 7); Fin (50 / 7)].
Proof.
  apply (X10_percentages_are_constant [ComponentCatalog.powerwall]).
  discriminate.
Defined.

(** ** More on the payback year *)

Lemma balanceAt_linear (tc ss : R) (y : nat) :
  balanceAt tc ss y = - tc + 240 * ss * INR y.
Proof. unfold balanceAt. lra. Qed.

Lemma INR_25 : INR 25 = 25.
Proof. simpl. lra. Qed.

(** The payback year that is found within the horizon, by its bounds. *)
Lemma paybackOf_found (tc ss : R) :
  0 <= tc -> 0 < balanceAt tc ss 25 ->
  exists p : nat,
    (1 <= p <= 25)%nat /\ paybackOf tc ss = Fin (INR p) /\
    balanceAt tc ss (p - 1) <= 0 < balanceAt tc ss p /\
    forall q : nat, (q < p)%nat -> balanceAt tc ss q <= 0.
Proof.
  intros Htc H25.
  destruct (paybackYear_found tc ss 25 (le_n 25) H25) as (p & Hp & Hpay & Hpos & Hmin).
  exists p. assert (Hp1 : (1 <= p)%nat).
  { destruct p as [| p]; [| lia]. rewrite balanceAt_linear in Hpos.
    simpl in Hpos. lra. }
  repeat split; try assumption; try lia.
  apply Hmin. lia.
Qed.

(** The payback year, from the two costs it lies between. *)
Lemma paybackOf_between (tc ss : R) (p : nat) :
  0 <= tc -> (1 <= p <= 25)%nat ->
  240 * ss * INR (p - 1) <= tc < 240 * ss * INR p ->
  paybackOf tc ss = Fin (INR p).
Proof.
  intros Htc [Hp1 Hp25] [Hlo Hhi].
  assert (HINRp : 1 <= INR p <= 25).
  { split; [apply (le_INR 1), Hp1 |].
    rewrite <- INR_25. apply le_INR, Hp25. }
  assert (Hpred : INR (p - 1) = INR p - 1).
  { rewrite minus_INR by exact Hp1. simpl. lra. }
  assert (Hss : 0 < ss) by nra.
  assert (H25 : 0 < balanceAt tc ss 25).
  { rewrite balanceAt_linear, INR_25. nra. }
  destruct (paybackOf_found tc ss Htc H25) as (q & [Hq1 _] & Hpay & [Hqlo Hqhi] & _).
  rewrite Hpay. rewrite !balanceAt_linear in *.
  assert (Hqpred : INR (q - 1) = INR q - 1).
  { rewrite minus_INR by exact Hq1. simpl. lra. }
  rewrite Hpred in Hlo. rewrite Hqpred in Hqlo.
  assert (Hqp : q = p).
  { destruct (Nat.lt_trichotomy q p) as [Hlt | [Heq | Hgt]];
      [exfalso | exact Heq | exfalso].
    - assert (INR q + 1 <= INR p).
      { rewrite <- S_INR. apply le_INR. lia. }
      nra.
    - assert (INR p + 1 <= INR q).
      { rewrite <- S_INR. apply le_INR. lia. }
      nra. }
  now rewrite Hqp.
Qed.

(** X12.  A system that costs no more and is no smaller never pays back
    later: when the dearer, smaller system reports a payback year p2 of at
    least 1, the other one reports a payback year between 1 and p2. *)
Theorem X12_payback_monotone (tc1 tc2 ss1 ss2 : R) (p2 : nat) :
  0 <= tc1 <= tc2 -> 0 < ss2 <= ss1 ->
  (1 <= p2)%nat -> paybackOf tc2 ss2 = Fin (INR p2) ->
  exists p1 : nat,
    paybackOf tc1 ss1 = Fin (INR p1) /\ (1 <= p1 <= p2)%nat /\ (p2 <= 25)%nat.
Proof.
  intros [H1 H12] [Hs2 Hs21] Hp2 Hpay2.
  assert (Htc2 : 0 <= tc2) by lra.
  assert (Hfound : (p2 <= 25)%nat /\ 0 < balanceAt tc2 ss2 p2).
  { destruct (paybackYear_cases tc2 ss2 Htc2) as [[Hzero _] | (p & Hp & Hpay & Hpos)];
      unfold paybackOf in Hpay2.
    - exfalso. rewrite Hzero in Hpay2. injection Hpay2 as E.
      apply (lt_INR 0) in Hp2. simpl in Hp2. lra.
    - rewrite Hpay in Hpay2. injection Hpay2 as E. apply INR_eq in E.
      subst p. split; [lia | exact Hpos]. }
  destruct Hfound as [H25 Hpos2].
  assert (Hpos1 : 0 < balanceAt tc1 ss1 p2).
  { rewrite balanceAt_linear in *. assert (0 <= INR p2) by apply pos_INR. nra. }
  destruct (paybackYear_found tc1 ss1 p2 H25 Hpos1) as (p1 & Hle & Hpay1 & Hp1 & _).
  exists p1. split; [exact Hpay1 |]. split; [| exact H25]. split; [| exact Hle].
  destruct p1 as [| p1]; [exfalso | lia].
  rewrite balanceAt_linear in Hp1. simpl in Hp1. lra.
Qed.

Lemma paybackOf_14000 : paybackOf 14000 3.6 = Fin (INR 17).
Proof. apply paybackOf_between; simpl; lra || lia. Qed.

Lemma X12_payback_monotone_witness :
  exists p1 : nat,
    paybackOf 1400 3.6 = Fin (INR p1) /\ (1 <= p1 <= 17)%nat /\ (17 <= 25)%nat.
Proof.
  apply (X12_payback_monotone 1400 14000 3.6 3.6 17).
  - lra.
  - lra.
  - lia.
  - exact paybackOf_14000.
Defined.

(** ** The payback year of the page *)

Lemma panelCount_all_panels (cs : list Component) :
  Forall (fun c => c.(type) = panel) cs ->
  panelCount cs = List.length cs /\
  componentsCost cs = 300 * INR (List.length cs).
Proof.
  induction 1 as [| c cs Hc _ [IHn IHc]].
  - simpl. split; [reflexivity | lra].
  - cbn [panelCount componentsCost fold_right List.length]. rewrite Hc.
    fold (componentsCost cs). rewrite IHn, IHc, S_INR. simpl. split; [reflexivity | lra].
Qed.

Lemma panelCount_no_panels (cs : list Component) :
  (forall c, In c cs -> c.(type) <> panel) -> panelCount cs = 0%nat.
Proof.
  intros H. rewrite <- length_filter_isPanel.
  now rewrite (filter_no_panels cs H).
Qed.

Lemma Dashboard_economicAnalysis (st : Dashboard.State) :
  let cs := st.(Dashboard.selectedComponents) in
  let tc := 1.4 * componentsCost cs in
  let ss := INR (panelCount cs) * 0.360 in
  (Dashboard.Dashboard st).(Dashboard.economicAnalysis) =
  {| costBreakdown := calculateCosts cs;
     totalCost := Fin tc;
     roiData := generateROIData (Fin tc) (Some (Fin ss));
     payback := paybackOf tc ss |}.
Proof.
  cbv zeta.
  change ((Dashboard.Dashboard st).(Dashboard.economicAnalysis))
    with (EconomicAnalysis (economicProps st.(Dashboard.selectedComponents))).
  apply (EconomicAnalysis_fin (economicProps st.(Dashboard.selectedComponents))).
  unfold sizeOrDefault, economicProps. cbn [systemSize].
  apply calculateSystemSize_count.
Qed.

(** X13.  A selection made of panels only, however many, pays back in year
    5: each panel costs 420 with installation and design and earns 86.4 a
    year. *)
Theorem X13_panels_alone_pay_back_in_year_5 (st : Dashboard.State) :
  st.(Dashboard.selectedComponents) <> [] ->
  Forall (fun c => c.(type) = panel) st.(Dashboard.selectedComponents) ->
  (Dashboard.Dashboard st).(Dashboard.economicAnalysis).(payback) = Fin 5.
Proof.
  intros Hne Hall. rewrite Dashboard_economicAnalysis. cbn [payback].
  destruct (panelCount_all_panels _ Hall) as [-> ->].
  set (n := INR (List.length st.(Dashboard.selectedComponents))).
  assert (Hn : 1 <= n).
  { unfold n. destruct st.(Dashboard.selectedComponents) as [| c cs];
      [congruence |]. cbn [List.length]. rewrite S_INR.
    pose proof (pos_INR (List.length cs)). lra. }
  assert (Htc : 0 <= 1.4 * (300 * n)) by lra.
  assert (H25 : 0 < balanceAt (1.4 * (300 * n)) (n * 0.360) 25).
  { rewrite balanceAt_linear, INR_25. lra. }
  destruct (paybackOf_found _ _ Htc H25) as (p & Hp & Hpay & [Hlo Hhi] & _).
  rewrite Hpay. rewrite !balanceAt_linear in *.
  assert (Hp5 : p = 5%nat).
  { assert (H4 : (4 < p)%nat).
    { destruct (Nat.le_gt_cases p 4) as [Hle | Hgt]; [exfalso | exact Hgt].
      apply le_INR in Hle. replace (INR 4) with 4 in Hle by (simpl; lra).
      assert (0 <= INR p) by apply pos_INR. nra. }
    assert (H5 : (p - 1 < 5)%nat).
    { destruct (Nat.le_gt_cases 5 (p - 1)) as [Hge | Hlt]; [exfalso | exact Hlt].
      apply le_INR in Hge. replace (INR 5) with 5 in Hge by (simpl; lra).
      nra. }
    lia. }
  rewrite Hp5. f_equal. simpl. lra.
Qed.

Lemma X13_panels_alone_pay_back_in_year_5_witness :
  (Dashboard.Dashboard onePanelNorth).(Dashboard.economicAnalysis).(payback)
  = Fin 5.
Proof.
  apply (X13_panels_alone_pay_back_in_year_5 onePanelNorth).
  - discriminate.
  - repeat constructor.
Defined.

(** X14.  A selection without panels never pays back: the system size is
    0, every entry of the cash-flow series has production 0 and balance
    -totalCost, and the payback year is reported as 0. *)
Theorem X14_no_panels_never_pay_back (st : Dashboard.State) :
  (forall c, In c st.(Dashboard.selectedComponents) -> c.(type) <> panel) ->
  let ea := (Dashboard.Dashboard st).(Dashboard.economicAnalysis) in
  ea.(payback) = Fin 0 /\
  forall data, In data ea.(roiData) ->
    data.(production) = Fin 0 /\ data.(balance) = (- ea.(totalCost))%js.
Proof.
  intros Hnone. cbv zeta. rewrite Dashboard_economicAnalysis.
  cbn [payback roiData totalCost]. rewrite (panelCount_no_panels _ Hnone).
  set (tc := 1.4 * componentsCost st.(Dashboard.selectedComponents)).
  assert (Htc : 0 <= tc).
  { unfold tc.
    pose proof (componentsCost_nonneg st.(Dashboard.selectedComponents)). lra. }
  split.
  - apply paybackYear_none. intros y _. rewrite balanceAt_linear. simpl. lra.
  - intros data Hin. apply in_generateROIData in Hin as (y & _ & ->).
    cbn [production balance roiEntry Num.opp]. split; f_equal.
    + simpl. lra.
    + rewrite balanceAt_linear. simpl. lra.
Qed.

Lemma X14_no_panels_never_pay_back_witness :
  let ea := (Dashboard.Dashboard inverterOnly).(Dashboard.economicAnalysis) in
  ea.(payback) = Fin 0 /\
  forall data, In data ea.(roiData) ->
    data.(production) = Fin 0 /\ data.(balance) = (- ea.(totalCost))%js.
Proof.
  apply (X14_no_panels_never_pay_back inverterOnly).
  simpl. intros c [<- | []]. discriminate.
Defined.

End EconomicExtras.

Section CodeArithmetic.

Import SimulationResults.
Import EconomicAnalysis.

(** ** The page with one panel, and the arithmetic of the code *)

Lemma onePanelAt30South_series :
  (Dashboard.Dashboard onePanelAt30South)
    .(Dashboard.simulationResults).(monthlyProduction) =
  map (fun mp => {| month := fst mp;
                    SimulationResults.production := Fin (IZR (snd mp)) |})
      [ ("Ene", 56%Z); ("Feb", 52%Z); ("Mar", 49%Z); ("Abr", 41%Z);
        ("May", 32%Z); ("Jun", 27%Z); ("Jul", 29%Z); ("Ago", 36%Z);
        ("Sep", 43%Z); ("Oct", 51%Z); ("Nov", 54%Z); ("Dic", 57%Z) ].
Proof.
  assert (Habs : Rabs (-30) = 30).
  { unfold Rabs. destruct (Rcase_abs (-30)); lra. }
  assert (Hlat : latitudeOrDefault onePanelAt30South.(Dashboard.location)
                 = Fin (-30)).
  { cbn [latitudeOrDefault onePanelAt30South Dashboard.location latitude].
    unfold Num.or_else, Num.truthy. rewrite is_zero_false by lra. reflexivity. }
  unfold Dashboard.Dashboard. cbn [Dashboard.simulationResults].
  unfold SimulationResults.
  cbn [monthlyProduction SimulationResults.location
       SimulationResults.systemConstraints SimulationResults.selectedComponents].
  rewrite Hlat.
  change (calculateMonthlyProduction (Fin (INR 1 * 0.360)) (Fin 30) (Fin (-30)) =
          map (fun mp => {| month := fst mp;
                    SimulationResults.production := Fin (IZR (snd mp)) |})
            [ ("Ene", 56%Z); ("Feb", 52%Z); ("Mar", 49%Z); ("Abr", 41%Z);
              ("May", 32%Z); ("Jun", 27%Z); ("Jul", 29%Z); ("Ago", 36%Z);
              ("Sep", 43%Z); ("Oct", 51%Z); ("Nov", 54%Z); ("Dic", 57%Z) ]).
  rewrite calculateMonthlyProduction_fin. unfold misalignment. rewrite Habs.
  replace ((30 - 30) * PI / 180) with 0 by lra. rewrite cos_0.
  cbn [map monthlyFactors fst snd].
  repeat (apply f_equal2;
          [ do 2 f_equal; apply rounded_production_nearest;
            cbn [INR]; apply Rabs_le; lra | ]).
  reflexivity.
Qed.

Import PrimFloat.

(** C5, counterexample.  One catalog panel at 30 degrees south with the
    tilt 30: the simulation reports an annual production of 527 kWh, the
    total cost is 420, and the price of the code is 0.15.  The balance of
    year 1 is -333.6 (the production used is 576 kWh), not
    -420 + 527 * 0.15 * 1 = -340.95, and the payback year is 5, a year in
    which the balance of the claim is still negative.  In the arithmetic
    of the code, with a total cost of 1e20 and a system size of 1 kW, the
    balances of year 0 and of year 1 are the same number: the series is not
    strictly increasing. *)
Lemma C5_counterexample :
  (Dashboard.Dashboard onePanelAt30South)
    .(Dashboard.simulationResults).(metrics).(annualProduction) = Fin 527 /\
  (Dashboard.Dashboard onePanelAt30South)
    .(Dashboard.economicAnalysis).(totalCost) = Fin 420 /\
  nth_error
    (Dashboard.Dashboard onePanelAt30South).(Dashboard.economicAnalysis).(roiData)
    1 = Some {| year := Fin 1; balance := Fin (-333.6); production := Fin 576 |} /\
  spec_balance 420 527 0.15 1 = -340.95 /\
  (Dashboard.Dashboard onePanelAt30South)
    .(Dashboard.economicAnalysis).(payback) = Fin 5 /\
  spec_balance 420 527 0.15 5 < 0 /\
  map Binary64.balance
      (firstn 2 (Binary64.generateROIData 1e20%float (Some 1%float)))
    = [(-1e20)%float; (-1e20)%float].
Proof.
  split; [| split; [| split; [| split; [| split; [| split]]]]].
  - pose proof onePanelAt30South_series as Hseries.
    unfold Dashboard.Dashboard, SimulationResults in *.
    cbn [Dashboard.simulationResults monthlyProduction metrics] in *.
    unfold calculatePerformanceMetrics. cbn [annualProduction].
    rewrite Hseries. simpl. f_equal. lra.
  - rewrite Dashboard_economicAnalysis. cbn [totalCost]. f_equal. simpl. lra.
  - rewrite Dashboard_economicAnalysis. cbn [roiData].
    rewrite generateROIData_nth by lia. unfold roiEntry, balanceAt.
    do 2 f_equal; f_equal; simpl; lra.
  - unfold spec_balance. simpl. lra.
  - rewrite Dashboard_economicAnalysis. cbn [payback].
    replace (Fin 5) with (Fin (INR 5)) by (f_equal; simpl; lra).
    apply paybackOf_between; simpl; lra || lia.
  - unfold spec_balance. simpl. lra.
  - vm_compute. reflexivity.
Qed.


End CodeArithmetic.

Section PageExtras.

Import SimulationResults.
Import EconomicAnalysis.

(** ** The handlers of the page *)

Lemma filterIndexed_keep {A : Type} (xs : list A) (target k : nat) :
  (target < k)%nat ->
  DashboardHandlers.filterIndexed (fun _ i => negb (Nat.eqb i target)) xs k = xs.
Proof.
  revert k. induction xs as [| a xs IH]; intros k Hk; simpl; [reflexivity |].
  destruct (Nat.eqb_spec k target) as [E | _]; [lia |]. simpl.
  f_equal. apply IH. lia.
Qed.

Lemma filterIndexed_removeAt {A : Type} (xs : list A) (index k : nat) :
  DashboardHandlers.filterIndexed
    (fun _ i => negb (Nat.eqb i (k + index))) xs k = removeAt index xs.
Proof.
  revert index k. induction xs as [| a xs IH]; intros index k; simpl.
  - unfold removeAt. now rewrite firstn_nil, skipn_nil.
  - destruct index as [| index].
    + rewrite Nat.add_0_r, Nat.eqb_refl. simpl.
      unfold removeAt. simpl. apply filterIndexed_keep. lia.
    + destruct (Nat.eqb_spec k (k + S index)) as [E | _]; [lia |]. simpl.
      unfold removeAt. simpl. f_equal.
      replace (k + S index)%nat with (S k + index)%nat by lia. apply IH.
Qed.

Lemma removeAt_out_of_range {A : Type} (xs : list A) (index : nat) :
  (List.length xs <= index)%nat -> removeAt index xs = xs.
Proof.
  intros H. unfold removeAt.
  rewrite firstn_all2 by exact H. rewrite skipn_all2 by lia. apply app_nil_r.
Qed.

Lemma removeAt_length {A : Type} (xs : list A) (index : nat) :
  (index < List.length xs)%nat ->
  List.length (removeAt index xs) = (List.length xs - 1)%nat.
Proof.
  intros H. unfold removeAt. rewrite length_app, length_firstn, length_skipn. lia.
Qed.

Lemma removeAt_last {A : Type} (xs : list A) (a : A) :
  removeAt (List.length xs) (xs ++ [a]) = xs.
Proof.
  induction xs as [| b xs IH]; [reflexivity |].
  unfold removeAt in *.
  change (b :: firstn (List.length xs) (xs ++ [a])
            ++ skipn (S (List.length xs)) (xs ++ [a]) = b :: xs).
  now rewrite IH.
Qed.

(** X15.  The delete button of the entry at [index] removes that entry and
    no other: the entries before and after it stay, in their order; the
    list gets one shorter; an index past the end changes nothing; the
    location and the constraints are not touched. *)
Theorem X15_delete_removes_one_entry (index : nat) (st : Dashboard.State) :
  let st' := DashboardHandlers.onDeleteClick index st in
  let cs := st.(Dashboard.selectedComponents) in
  st'.(Dashboard.selectedComponents)
    = (firstn index cs ++ skipn (S index) cs)%list /\
  ((index < List.length cs)%nat ->
   List.length st'.(Dashboard.selectedComponents) = (List.length cs - 1)%nat) /\
  ((List.length cs <= index)%nat -> st' = st) /\
  st'.(Dashboard.location) = st.(Dashboard.location) /\
  st'.(Dashboard.systemConstraints) = st.(Dashboard.systemConstraints).
Proof.
  cbv zeta.
  assert (E : (DashboardHandlers.onDeleteClick index st).(Dashboard.selectedComponents)
              = removeAt index st.(Dashboard.selectedComponents)).
  { unfold DashboardHandlers.onDeleteClick. cbn [Dashboard.selectedComponents].
    apply (filterIndexed_removeAt _ index 0). }
  split; [exact E |]. split; [| split; [| split; reflexivity]].
  - intros H. rewrite E. now apply removeAt_length.
  - intros H. destruct st as [loc cs sc].
    unfold DashboardHandlers.onDeleteClick in *.
    cbn [Dashboard.selectedComponents Dashboard.location
         Dashboard.systemConstraints] in *.
    rewrite E. now rewrite removeAt_out_of_range.
Qed.

Lemma X15_delete_removes_one_entry_witness :
  (DashboardHandlers.onDeleteClick 5 onePanelNorth) = onePanelNorth.
Proof.
  apply (X15_delete_removes_one_entry 5 onePanelNorth). simpl. lia.
Defined.

(** X16.  Selecting a component and then deleting the last entry of the
    list gives back the state the page had. *)
Theorem X16_select_then_delete_last (c : Component) (st : Dashboard.State) :
  DashboardHandlers.onDeleteClick
    (List.length st.(Dashboard.selectedComponents))
    (DashboardHandlers.onComponentSelect c st) = st.
Proof.
  destruct st as [loc cs sc].
  unfold DashboardHandlers.onDeleteClick, DashboardHandlers.onComponentSelect.
  cbn [Dashboard.selectedComponents Dashboard.location
       Dashboard.systemConstraints].
  pose proof (filterIndexed_removeAt (cs ++ [c]) (List.length cs) 0) as E.
  cbn [Nat.add] in E. rewrite E. now rewrite removeAt_last.
Qed.

Lemma filter_isPanel_app (cs : list Component) (c : Component) :
  filter isPanel (cs ++ [c]) =
  (filter isPanel cs ++ (if isPanel c then [c] else []))%list.
Proof. rewrite filter_app. reflexivity. Qed.

Lemma isPanel_false (c : Component) : c.(type) <> panel -> isPanel c = false.
Proof. unfold isPanel. destruct (type c); [congruence | reflexivity..]. Qed.

Lemma isPanel_true (c : Component) : c.(type) = panel -> isPanel c = true.
Proof. unfold isPanel. now intros ->. Qed.

Lemma SimulationResults_panels (p1 p2 : SimulationResults.Props) :
  filter isPanel p1.(SimulationResults.selectedComponents) =
  filter isPanel p2.(SimulationResults.selectedComponents) ->
  p1.(systemConstraints) = p2.(systemConstraints) ->
  p1.(location) = p2.(location) ->
  SimulationResults p1 = SimulationResults p2.
Proof.
  intros Hf Hsc Hloc. unfold SimulationResults. fold isPanel.
  now rewrite Hf, Hsc, Hloc.
Qed.

(** X17.  Selecting one more component adds 1.4 times its unit cost to the
    total cost.  A component that is not a panel leaves the simulation
    results as they were; a panel adds 0.36 kW to the system size. *)
Theorem X17_effect_of_a_selection (c : Component) (st : Dashboard.State) :
  let before := Dashboard.Dashboard st in
  let after :=
    Dashboard.Dashboard (DashboardHandlers.onComponentSelect c st) in
  after.(Dashboard.economicAnalysis).(totalCost) =
    (before.(Dashboard.economicAnalysis).(totalCost)
     + Fin (1.4 * unitCost c.(type)))%js /\
  (c.(type) <> panel ->
   after.(Dashboard.simulationResults) = before.(Dashboard.simulationResults)) /\
  (c.(type) = panel ->
   after.(Dashboard.simulationResults).(SimulationResults.systemSize) =
   (before.(Dashboard.simulationResults).(SimulationResults.systemSize)
    + Fin 0.360)%js).
Proof.
  cbv zeta. split; [| split].
  - unfold Dashboard.Dashboard. cbn [Dashboard.economicAnalysis].
    rewrite !totalCost_fin.
    cbn [selectedComponents DashboardHandlers.onComponentSelect
         Dashboard.selectedComponents Num.add].
    rewrite componentsCost_app. simpl. f_equal. lra.
  - intros Hc. unfold Dashboard.Dashboard. cbn [Dashboard.simulationResults].
    apply SimulationResults_panels; [| reflexivity..].
    cbn [SimulationResults.selectedComponents
         DashboardHandlers.onComponentSelect Dashboard.selectedComponents].
    rewrite filter_isPanel_app, (isPanel_false c Hc). apply app_nil_r.
  - intros Hc. unfold Dashboard.Dashboard, SimulationResults.
    cbn [Dashboard.simulationResults SimulationResults.systemSize
         SimulationResults.selectedComponents
         DashboardHandlers.onComponentSelect Dashboard.selectedComponents].
    fold isPanel. rewrite filter_isPanel_app, (isPanel_true c Hc).
    rewrite length_app. cbn [List.length]. unfold Num.of_nat.
    rewrite Nat.add_1_r, S_INR. cbn [Num.mul Num.add]. f_equal. lra.
Qed.

Lemma X17_effect_of_a_selection_witness :
  (Dashboard.Dashboard
     (DashboardHandlers.onComponentSelect ComponentCatalog.powerwall onePanelNorth))
    .(Dashboard.simulationResults)
  = (Dashboard.Dashboard onePanelNorth).(Dashboard.simulationResults).
Proof.
  apply (X17_effect_of_a_selection ComponentCatalog.powerwall onePanelNorth).
  discriminate.
Defined.

(** ** The form and the dashboard together *)

Lemma formInSync_initial : formInSync Page.initialState.
Proof. right. repeat split. Qed.

Lemma formInSync_handle (e : Page.Event) (st : Page.State) :
  formInSync st -> formInSync (Page.handle e st).
Proof.
  intros H. destruct e; cbn [Page.handle]; try (left; reflexivity);
    destruct H as [H | (H1 & H2 & H3)];
    solve [ left; cbn; exact H | right; cbn; repeat split; assumption ].
Qed.

Lemma formInSync_run (events : list Page.Event) (st : Page.State) :
  formInSync st -> formInSync (Page.run events st).
Proof.
  revert st. induction events as [| e events IH]; intros st H; simpl;
    [exact H |].
  apply IH, formInSync_handle, H.
Qed.

Lemma formInSync_latitude (st : Page.State) :
  formInSync st ->
  latitudeOrDefault st.(Page.dashboard).(Dashboard.location) =
  Num.or_else st.(Page.form).(latitude) (Fin (-33.4489)).
Proof.
  intros [H | (H1 & H2 & _)]; rewrite ?H, ?H1; [reflexivity |].
  rewrite H2. cbn [latitudeOrDefault DataEntryForm.initialLocation latitude].
  unfold Num.or_else. simpl. now rewrite is_zero_false by lra.
Qed.

(** X18.  After any sequence of clicks on the map, address inputs, slider
    moves, selections and deletions, the latitude the simulation uses is
    the latitude shown in the form (or -33.4489 when that one is 0 or
    NaN). *)
Theorem X18_simulation_uses_the_latitude_of_the_form
    (events : list Page.Event) :
  let st := Page.run events Page.initialState in
  latitudeOrDefault st.(Page.dashboard).(Dashboard.location) =
  Num.or_else st.(Page.form).(latitude) (Fin (-33.4489)).
Proof.
  cbv zeta. apply formInSync_latitude, formInSync_run, formInSync_initial.
Qed.

(** X19.  Typing an address changes nothing the page computes, at any
    moment. *)
Theorem X19_address_input_changes_no_result
    (events : list Page.Event) (value : string) :
  let st := Page.run events Page.initialState in
  rendered (Page.handle (Page.AddressInput value) st) = rendered st.
Proof.
  cbv zeta. set (st := Page.run events Page.initialState).
  pose proof (formInSync_run events _ formInSync_initial) as Hsync. fold st in Hsync.
  pose proof (formInSync_latitude st Hsync) as Hlat.
  unfold rendered, Dashboard.Dashboard. f_equal.
  cbn [Page.handle Page.dashboard DashboardHandlers.handleLocationChange
       Dashboard.selectedComponents Dashboard.systemConstraints
       Dashboard.location].
  apply (SimulationResults_latitude
           st.(Page.dashboard).(Dashboard.selectedComponents)
           st.(Page.dashboard).(Dashboard.systemConstraints)).
  rewrite Hlat. reflexivity.
Qed.

End PageExtras.

Section CatalogExtras.

(** ** The filter of the catalog *)

Lemma includes_empty (s : string) : CatalogFilter.includes s EmptyString = true.
Proof. destruct s; reflexivity. Qed.

Lemma filter_andb {A : Type} (p q : A -> bool) (xs : list A) :
  filter (fun a => (p a && q a)%bool) xs = filter q (filter p xs).
Proof.
  induction xs as [| a xs IH]; simpl; [reflexivity |].
  destruct (p a); simpl; [destruct (q a); now rewrite IH | exact IH].
Qed.

(** X20.  Whatever the search term is, the catalog shows only sample
    components of the active tab, in the order of the sample data; when the
    lower-cased term is empty (an empty search box) it shows all of them. *)
Theorem X20_catalog_filter (toLowerCase : string -> string)
    (activeTab : ComponentType) (searchTerm : string) :
  let shown :=
    CatalogFilter.filteredComponents toLowerCase activeTab searchTerm in
  let ofTab :=
    filter (fun c => ComponentType_eqb c.(type) activeTab)
           ComponentCatalog.sampleComponents in
  (forall c, In c shown -> In c ofTab) /\
  (exists keep : Component -> bool, shown = filter keep ofTab) /\
  (toLowerCase searchTerm = EmptyString -> shown = ofTab).
Proof.
  cbv zeta.
  set (matches := fun c : Component =>
         (CatalogFilter.includes (toLowerCase c.(manufacturer))
                                 (toLowerCase searchTerm)
          || CatalogFilter.includes (toLowerCase c.(model))
                                    (toLowerCase searchTerm))%bool).
  assert (E :
    CatalogFilter.filteredComponents toLowerCase activeTab searchTerm
    = filter matches
        (filter (fun c => ComponentType_eqb c.(type) activeTab)
                ComponentCatalog.sampleComponents)).
  { apply (filter_andb (fun c => ComponentType_eqb c.(type) activeTab) matches). }
  rewrite E. split; [| split].
  - intros c Hc. apply filter_In in Hc. tauto.
  - exists matches. reflexivity.
  - intros Hterm. apply forallb_filter_id. apply forallb_forall.
    intros c _. unfold matches. now rewrite Hterm, includes_empty.
Qed.

Lemma X20_catalog_filter_witness :
  CatalogFilter.filteredComponents asciiToLower inverter EmptyString =
  filter (fun c => ComponentType_eqb c.(type) inverter)
         ComponentCatalog.sampleComponents.
Proof.
  apply (X20_catalog_filter asciiToLower inverter EmptyString). reflexivity.
Defined.

End CatalogExtras.

Section ServiceExtras.

(** ** The services *)

Lemma orElse_nonempty (e : option string) (fallback : string) :
  fallback <> EmptyString ->
  Api.orElse e fallback <> EmptyString /\
  (forall s, e = Some s -> s <> EmptyString -> Api.orElse e fallback = s) /\
  (e = None \/ e = Some EmptyString -> Api.orElse e fallback = fallback).
Proof.
  intros Hf. destruct e as [s |]; [destruct s as [| ch s] |]; simpl.
  - split; [exact Hf |]. split; [| reflexivity].
    intros s' [= <-] Hne. congruence.
  - split; [discriminate |]. split.
    + intros s' [= <-] _. reflexivity.
    + intros [H | H]; discriminate.
  - split; [exact Hf |]. split; [| reflexivity].
    intros s' H. discriminate.
Qed.

Lemma call_rejected {T : Type} (fallback : string) (e : option string) :
  fallback <> EmptyString ->
  let r := @Api.call T fallback (Api.Rejected e) in
  r.(Api.success) = false /\ r.(Api.data) = None /\
  exists message : string,
    r.(Api.error) = Some message /\ message <> EmptyString /\
    (forall s, e = Some s -> s <> EmptyString -> message = s).
Proof.
  intros Hf. cbv zeta. simpl. repeat split.
  destruct (orElse_nonempty e fallback Hf) as (Hne & Hs & _).
  exists (Api.orElse e fallback). repeat split; assumption.
Qed.

(** X21.  No service of [weatherService] and [projectService] fails
    without a message: a resolved call returns the body it received
    unchanged, and a rejected call returns success = false, no data and a
    message that is not empty, the one of the server when it sent one. *)
Theorem X21_services_always_report (T : Type)
    (service : Api.Outcome T -> Api.ApiResponse T) :
  In service (dataServices T) ->
  (forall body, service (Api.Resolved body) = body) /\
  (forall e : option string,
     let r := service (Api.Rejected e) in
     r.(Api.success) = false /\ r.(Api.data) = None /\
     exists message : string,
       r.(Api.error) = Some message /\ message <> EmptyString /\
       (forall s, e = Some s -> s <> EmptyString -> message = s)).
Proof.
  intros Hin. simpl in Hin.
  repeat (destruct Hin as [<- | Hin];
          [split; [reflexivity | intros e; apply call_rejected; discriminate] |]).
  contradiction.
Qed.

Lemma X21_services_always_report_witness :
  let r := @projectService.getSimulation nat (Api.Rejected None) in
  r.(Api.success) = false /\ r.(Api.data) = None /\
  exists message : string,
    r.(Api.error) = Some message /\ message <> EmptyString /\
    (forall s, @None string = Some s -> s <> EmptyString -> message = s).
Proof.
  assert (Hin : In (@projectService.getSimulation nat) (dataServices nat)).
  { simpl. do 10 right. left. reflexivity. }
  destruct (X21_services_always_report nat _ Hin) as [_ H].
  apply (H None).
Defined.

(** ** The authentication context *)

Lemma authConsistent_signedIn (u : authService.User) :
  authConsistent (AuthContext.signedIn u).
Proof. split; [discriminate | reflexivity]. Qed.

Lemma authConsistent_signedOut : authConsistent AuthContext.signedOut.
Proof. split; [discriminate | intros H; now contradiction H]. Qed.

Lemma authConsistent_initial : authConsistent AuthContext.initialState.
Proof. split; [discriminate | intros H; now contradiction H]. Qed.

Lemma authConsistent_failed (message : string) (prev : AuthContext.AuthState) :
  authConsistent prev -> authConsistent (AuthContext.failed message prev).
Proof. intros H. exact H. Qed.

Lemma authStep_consistent (e : AuthEvent)
    (s : AuthContext.AuthState * authService.Storage) :
  authConsistent (fst s) ->
  authConsistent (fst (authStep e s)) /\
  (fst (authStep e s)).(AuthContext.loading) = false.
Proof.
  intros H. destruct s as [st storage]. destruct e as [o | o | o |];
    cbn [authStep fst snd].
  - unfold AuthContext.initAuth.
    destruct (authService.isAuthenticated storage).
    + cbv zeta.
      destruct (Api.success (authService.getCurrentUser o)),
               (Api.data (authService.getCurrentUser o)); cbn;
        auto using authConsistent_signedIn, authConsistent_signedOut.
    + split; [apply authConsistent_initial | reflexivity].
  - unfold AuthContext.login.
    destruct (authService.login o storage) as [response storage'].
    cbn [fst]. destruct (Api.success response), (Api.data response); cbn;
      auto using authConsistent_signedIn.
  - unfold AuthContext.register. cbv zeta.
    destruct (Api.success (authService.register o)),
             (Api.data (authService.register o)); cbn;
      auto using authConsistent_signedIn.
  - split; [apply authConsistent_signedOut | reflexivity].
Qed.

(** X22.  Whatever the API answers, after any sequence of page loads,
    logins, registrations and logouts the context says "authenticated"
    exactly when it holds a user; and once something has happened it is no
    longer loading. *)
Theorem X22_authenticated_iff_user (events : list AuthEvent)
    (storage : authService.Storage) :
  let st := fst (authRun events (AuthContext.initialState, storage)) in
  (st.(AuthContext.isAuthenticated) = true <-> st.(AuthContext.user) <> None) /\
  (events <> [] -> st.(AuthContext.loading) = false).
Proof.
  cbv zeta.
  assert (H : forall es s,
    authConsistent (fst s) ->
    authConsistent (fst (authRun es s)) /\
    (es <> [] \/ (fst s).(AuthContext.loading) = false ->
     (fst (authRun es s)).(AuthContext.loading) = false)).
  { induction es as [| e es IH]; intros s Hs; simpl.
    - split; [exact Hs |]. intros [Hne | Hl]; [congruence | exact Hl].
    - destruct (authStep_consistent e s Hs) as [Hc Hl].
      destruct (IH (authStep e s) Hc) as [Hc' Hl'].
      split; [exact Hc' |]. intros _. apply Hl'. now right. }
  destruct (H events (AuthContext.initialState, storage) authConsistent_initial)
    as [Hc Hl].
  split; [exact Hc |]. intros Hne. apply Hl. now left.
Qed.

Lemma X22_authenticated_iff_user_witness :
  (fst (authRun [Mount (Api.Rejected None); Logout]
                (AuthContext.initialState, None))).(AuthContext.loading)
  = false.
Proof.
  apply (X22_authenticated_iff_user [Mount (Api.Rejected None); Logout] None).
  discriminate.
Defined.

(** X23.  A login either signs the user of the response in, clears the
    error and stores the token of the response, or it leaves the user and
    the authenticated flag as they were and sets an error message that is
    not empty.  In both cases the context is no longer loading. *)
Theorem X23_login_outcome (outcome : Api.Outcome authService.Session)
    (storage : authService.Storage) (prev : AuthContext.AuthState) :
  let st := fst (AuthContext.login outcome storage prev) in
  let storage' := snd (AuthContext.login outcome storage prev) in
  st.(AuthContext.loading) = false /\
  ((exists session : authService.Session,
      st = AuthContext.signedIn session.(authService.user) /\
      storage' = Some session.(authService.token))
   \/
   (st.(AuthContext.user) = prev.(AuthContext.user) /\
    st.(AuthContext.isAuthenticated) = prev.(AuthContext.isAuthenticated) /\
    exists message : string,
      st.(AuthContext.error) = Some message /\ message <> EmptyString)).
Proof.
  cbv zeta. unfold AuthContext.login.
  destruct outcome as [[ok d err] | e]; cbn -[Api.orElse].
  - destruct ok, d as [session |]; cbn -[Api.orElse]; split; try reflexivity.
    + left. exists session. split; reflexivity.
    + right. repeat split. eexists. split; [reflexivity |].
      apply orElse_nonempty. discriminate.
    + right. repeat split. eexists. split; [reflexivity |].
      apply orElse_nonempty. discriminate.
    + right. repeat split. eexists. split; [reflexivity |].
      apply orElse_nonempty. discriminate.
  - split; [reflexivity |]. right. repeat split.
    eexists. split; [reflexivity |]. apply orElse_nonempty. discriminate.
Qed.

(** X24.  A session opened by a registration is not kept across a reload
    of the page: [register] stores no token, so when none was stored before,
    the next mount finds the user signed out, whatever the API would answer.
    A session opened by a login with a token that is not empty is kept when
    the API confirms the user. *)
Theorem X24_sessions_across_a_reload
    (u u' : authService.User) (session : authService.Session)
    (storage : authService.Storage)
    (answer : Api.Outcome authService.User) :
  authService.isAuthenticated storage = false ->
  session.(authService.token) <> EmptyString ->
  let start := (AuthContext.initialState, storage) in
  fst (authRun [Register (succeeded u)] start) = AuthContext.signedIn u /\
  fst (authRun [Register (succeeded u); Mount answer] start)
    = {| AuthContext.user := None;
         AuthContext.isAuthenticated := false;
         AuthContext.loading := false;
         AuthContext.error := None |} /\
  fst (authRun [Login (succeeded session); Mount (succeeded u')] start)
    = AuthContext.signedIn u'.
Proof.
  intros Hstorage Htoken. cbv zeta. split; [reflexivity |]. split.
  - cbn [authRun fold_left authStep fst snd].
    unfold AuthContext.initAuth. rewrite Hstorage. reflexivity.
  - cbn [authRun fold_left authStep fst snd].
    unfold AuthContext.login, succeeded. cbn.
    unfold AuthContext.initAuth.
    destruct (authService.token session) as [| ch rest] eqn:E;
      [congruence | reflexivity].
Qed.

Lemma X24_sessions_across_a_reload_witness :
  let ana :=
    {| authService.id := Fin 1;
       authService.email := "ana@example.org";
       authService.name := "Ana" |} in
  let start := (AuthContext.initialState, @None string) in
  fst (authRun [Register (succeeded ana)] start) = AuthContext.signedIn ana /\
  fst (authRun [Register (succeeded ana); Mount (succeeded ana)] start)
    = {| AuthContext.user := None;
         AuthContext.isAuthenticated := false;
         AuthContext.loading := false;
         AuthContext.error := None |} /\
  fst (authRun [Login (succeeded {| authService.token := "t0k3n";
                                    authService.user := ana |});
                Mount (succeeded ana)] start)
    = AuthContext.signedIn ana.
Proof.
  apply (X24_sessions_across_a_reload
           {| authService.id := Fin 1;
              authService.email := "ana@example.org";
              authService.name := "Ana" |}
           {| authService.id := Fin 1;
              authService.email := "ana@example.org";
              authService.name := "Ana" |}
           {| authService.token := "t0k3n";
              authService.user :=
                {| authService.id := Fin 1;
                   authService.email := "ana@example.org";
                   authService.name := "Ana" |} |}
           None).
  - reflexivity.
  - discriminate.
Defined.

(** X25.  After a logout the user is signed out and the token is gone,
    whatever happened before; a reload of the page then makes no difference,
    whatever the API would answer. *)
Theorem X25_logout_is_final (events : list AuthEvent)
    (storage : authService.Storage)
    (answer : Api.Outcome authService.User) :
  let start := (AuthContext.initialState, storage) in
  authRun (events ++ [Logout]) start = (AuthContext.signedOut, None) /\
  authService.isAuthenticated (snd (authRun (events ++ [Logout]) start)) = false /\
  fst (authRun (events ++ [Logout; Mount answer]) start)
    = AuthContext.signedOut.
Proof.
  cbv zeta. unfold authRun. rewrite !fold_left_app. cbn [fold_left authStep].
  unfold AuthContext.logout, authService.logout. cbn [fst snd].
  repeat split.
Qed.

End ServiceExtras.

Section ViewerExtras.

(** ** The roof of the 3D view *)

(** X26.  For a finite positive available area the roof is drawn as a
    square of that area: width and length are both the square root of the
    area.  Without constraints, or with an area of 0, it is drawn 10 by
    10. *)
Theorem X26_roof_is_a_square_of_the_area (sc : SystemConstraints) (a : R) :
  sc.(availableArea) = Fin a ->
  let r := ThreeJSViewer.roof (Some sc) in
  (0 < a ->
   r.(ThreeJSViewer.width) = r.(ThreeJSViewer.length) /\
   exists side : R,
     r.(ThreeJSViewer.width) = Fin side /\ 0 < side /\ side * side = a) /\
  (a = 0 -> r = ThreeJSViewer.defaultArea) /\
  ThreeJSViewer.roof None = ThreeJSViewer.defaultArea.
Proof.
  intros Ha. cbv zeta. unfold ThreeJSViewer.roof. rewrite Ha.
  cbn [Num.truthy ThreeJSViewer.Math_sqrt]. split; [| split].
  - intros Hpos. rewrite is_zero_false by lra. cbn [negb].
    unfold Num.negative. destruct (Rlt_dec a 0) as [Hneg | _]; [lra |].
    cbn [ThreeJSViewer.width ThreeJSViewer.length]. split; [reflexivity |].
    exists (sqrt a). split; [reflexivity |]. split.
    + now apply sqrt_lt_R0.
    + apply sqrt_sqrt. lra.
  - intros ->. rewrite is_zero_true. reflexivity.
  - reflexivity.
Qed.

Lemma X26_roof_is_a_square_of_the_area_witness :
  let r :=
    ThreeJSViewer.roof
      (Some Dashboard.initialState.(Dashboard.systemConstraints)) in
  r.(ThreeJSViewer.width) = r.(ThreeJSViewer.length) /\
  exists side : R,
    r.(ThreeJSViewer.width) = Fin side /\ 0 < side /\ side * side = 100.
Proof.
  assert (Ha : Dashboard.initialState.(Dashboard.systemConstraints).(availableArea)
               = Fin 100) by reflexivity.
  destruct (X26_roof_is_a_square_of_the_area _ 100 Ha) as [H _].
  apply H. lra.
Defined.

End ViewerExtras.
